(** * Pet care system: the domain model and the persistence core of [main.py]

    A shallow embedding of the classes [Pet], [Dog], [Cat], [Bird] and
    [PetCareManager], and the properties of the overdue query, of the
    dictionary round trip, of loading and saving, and of the collection
    operations.

    Python values are a tagged tree ([value]); dictionaries keep their
    insertion order, as Python and the JSON module do.  Pet objects live in a
    heap and are named by references, so that an operation's effect on an
    object, and the absence of one, are statements about the heap.  The clock
    and the file system are the environment: every call of [datetime.now()]
    takes the next reading of [clock], every file operation the next outcome
    of [io]. *)

From Stdlib Require Import ZArith List String Ascii Bool Lia PeanoNat.
Import ListNotations.
Open Scope string_scope.
Open Scope list_scope.
Open Scope Z_scope.

Set Warnings "-register-all".

(** ** Python values *)

(** The values the program stores and the JSON module reads back: [None],
    booleans, integers, strings, lists and dictionaries with string keys.
    Floating-point numbers are not among them: what the code does with a
    number that has a fraction (a cadence of [7.0] or [1.5] in the file) is
    outside the model, and no statement below speaks of it.  A list is a
    value, not an object with an identity: two pets that hold one and the
    same list object are not told apart from two pets that hold equal
    lists. *)
Inductive value : Type :=
| VNone
| VBool (b : bool)
| VInt (z : Z)
| VStr (s : string)
| VList (l : list value)
| VDict (d : list (string * value)).

(** Lookup of a key in a dictionary. *)
Fixpoint dict_get {A : Type} (k : string) (d : list (string * A)) : option A :=
  match d with
  | [] => None
  | (k', v) :: d' => if String.eqb k k' then Some v else dict_get k d'
  end.

(** [d[k] = v]: an existing key keeps its place, a new one goes last. *)
Fixpoint dict_set {A : Type} (k : string) (v : A) (d : list (string * A))
  : list (string * A) :=
  match d with
  | [] => [(k, v)]
  | (k', v') :: d' =>
      if String.eqb k k' then (k, v) :: d' else (k', v') :: dict_set k v d'
  end.

Definition Z_of_bool (b : bool) : Z := if b then 1 else 0.

(** Python's [==] on these values: [True == 1], lists compare element by
    element, dictionaries compare key by key whatever the order. *)
Fixpoint py_eq (a b : value) {struct a} : bool :=
  match a, b with
  | VNone, VNone => true
  | VBool x, VBool y => Bool.eqb x y
  | VBool x, VInt y => Z_of_bool x =? y
  | VInt x, VBool y => x =? Z_of_bool y
  | VInt x, VInt y => x =? y
  | VStr x, VStr y => String.eqb x y
  | VList xs, VList ys =>
      (fix list_eq (xs ys : list value) {struct xs} : bool :=
         match xs, ys with
         | [], [] => true
         | x :: xs', y :: ys' => py_eq x y && list_eq xs' ys'
         | _, _ => false
         end) xs ys
  | VDict xs, VDict ys =>
      Nat.eqb (List.length xs) (List.length ys)
      && (fix items_eq (xs : list (string * value)) {struct xs} : bool :=
            match xs with
            | [] => true
            | (k, v) :: xs' =>
                match dict_get k ys with
                | Some w => py_eq v w
                | None => false
                end && items_eq xs'
            end) xs
  | _, _ => false
  end.

(** ** Exceptions *)

(** The classes the modelled code can raise; all of them derive from
    [Exception], so [except Exception] catches each one. *)
Inductive exn : Type :=
| KeyError (key : string)
| TypeError
| ValueError
| AttributeError
| OSError.

Inductive result (A : Type) : Type :=
| Ok (a : A)
| Raise (e : exn).
Arguments Ok {A} a.
Arguments Raise {A} e.

Definition rbind {A B : Type} (r : result A) (f : A -> result B) : result B :=
  match r with
  | Ok a => f a
  | Raise e => Raise e
  end.

(** [v[k]] for a string key: only a dictionary can answer. *)
Definition py_getitem (v : value) (k : string) : result value :=
  match v with
  | VDict d =>
      match dict_get k d with
      | Some x => Ok x
      | None => Raise (KeyError k)
      end
  | _ => Raise TypeError
  end.

(** [v.get(k, default)]. *)
Definition py_get (v : value) (k : string) (default : value) : result value :=
  match v with
  | VDict d =>
      match dict_get k d with
      | Some x => Ok x
      | None => Ok default
      end
  | _ => Raise AttributeError
  end.

(** [v[k] = x] on a dictionary. *)
Definition py_setitem (v : value) (k : string) (x : value) : result value :=
  match v with
  | VDict d => Ok (VDict (dict_set k x d))
  | _ => Raise TypeError
  end.

(** The characters of a string, each as a string of length one. *)
Fixpoint chars (s : string) : list value :=
  match s with
  | EmptyString => []
  | String c s' => VStr (String c EmptyString) :: chars s'
  end.

(** The elements a [for] loop runs over. *)
Definition py_iter (v : value) : result (list value) :=
  match v with
  | VList l => Ok l
  | VDict d => Ok (map (fun kv => VStr (fst kv)) d)
  | VStr s => Ok (chars s)
  | _ => Raise TypeError
  end.

(** An operand of the comparison and of the subtraction with an [int]:
    [bool] is a subclass of [int]; [None], a string, a list and a
    dictionary raise [TypeError].  (A float would be an operand too; there
    is none among the values.) *)
Definition py_int (v : value) : result Z :=
  match v with
  | VInt z => Ok z
  | VBool b => Ok (Z_of_bool b)
  | _ => Raise TypeError
  end.

(** ** Dates and times *)

(** A [datetime]: the day, as the ordinal of its date, and the time of day
    in microseconds since midnight. *)
Record datetime : Type := mkDatetime { dt_date : Z; dt_time : Z }.

Definition day_us : Z := 86400000000.

Definition valid_time (t : datetime) : Prop := 0 <= dt_time t < day_us.

(** [(a - b).days]: a [timedelta] is normalised so that its seconds and
    microseconds are not negative, which makes [days] the floor. *)
Definition timedelta_days (a b : datetime) : Z :=
  ((dt_date a - dt_date b) * day_us + (dt_time a - dt_time b)) / day_us.

(** ** Objects and program state *)

(** The three concrete classes, each with its own attribute. *)
Inductive Variant : Type :=
| Dog (size : value)
| Cat (indoor : value)
| Bird (can_fly : value).

Definition class_name (k : Variant) : string :=
  match k with
  | Dog _ => "Dog"
  | Cat _ => "Cat"
  | Bird _ => "Bird"
  end.

Record Pet : Type := mkPet {
  kind : Variant;
  name : value;
  age : value;
  breed : value;
  care_schedule : value;
  health_records : value
}.

Definition with_care_schedule (v : value) (p : Pet) : Pet :=
  mkPet (kind p) (name p) (age p) (breed p) v (health_records p).

Definition with_health_records (v : value) (p : Pet) : Pet :=
  mkPet (kind p) (name p) (age p) (breed p) (care_schedule p) v.

(** The file [data/pets_data.json]: absent, holding the JSON text of the
    value [v] (what [json.dump] writes for [v] and [json.load] reads back as
    [v]), or holding text that is not JSON (a write that stopped half
    way). *)
Inductive file : Type :=
| NoFile
| JsonDoc (v : value)
| Garbage.

(** What the environment answers to one use of the file. *)
Inductive io_outcome : Type :=
| IoOk
| OpenFails (e : exn)
| TransferFails (e : exn).

(** The lines the program prints. *)
Inductive diagnostic : Type :=
| ErrorSaving (e : exn)
| ErrorLoading (e : exn)
| ErrorCreating (e : exn).

Definition ref : Type := nat.

Record state : Type := mkState {
  heap : ref -> Pet;          (* the Pet objects *)
  next_ref : ref;             (* the next fresh reference *)
  pets : list ref;            (* the manager's [self.pets] *)
  disk : file;                (* the manager's data file *)
  stdout : list diagnostic;   (* printed so far *)
  ticks : nat;                (* clock readings taken so far *)
  io_ops : nat                (* file operations attempted so far *)
}.

Definition set_heap (h : ref -> Pet) (n : ref) (st : state) : state :=
  mkState h n (pets st) (disk st) (stdout st) (ticks st) (io_ops st).

Definition set_pets (l : list ref) (st : state) : state :=
  mkState (heap st) (next_ref st) l (disk st) (stdout st) (ticks st) (io_ops st).

Definition set_disk (f : file) (st : state) : state :=
  mkState (heap st) (next_ref st) (pets st) f (stdout st) (ticks st) (io_ops st).

Definition set_stdout (o : list diagnostic) (st : state) : state :=
  mkState (heap st) (next_ref st) (pets st) (disk st) o (ticks st) (io_ops st).

Definition tick (st : state) : state :=
  mkState (heap st) (next_ref st) (pets st) (disk st) (stdout st)
          (S (ticks st)) (io_ops st).

Definition count_io (st : state) : state :=
  mkState (heap st) (next_ref st) (pets st) (disk st) (stdout st)
          (ticks st) (S (io_ops st)).

Definition upd (h : ref -> Pet) (r : ref) (p : Pet) : ref -> Pet :=
  fun r' => if Nat.eqb r' r then p else h r'.

(** ** The monad of the program: state and exceptions *)

Definition M (A : Type) : Type := state -> result A * state.

Definition ret {A : Type} (a : A) : M A := fun st => (Ok a, st).

Definition bind {A B : Type} (m : M A) (f : A -> M B) : M B :=
  fun st =>
    match m st with
    | (Ok a, st') => f a st'
    | (Raise e, st') => (Raise e, st')
    end.

Definition raise {A : Type} (e : exn) : M A := fun st => (Raise e, st).

Definition lift {A : Type} (r : result A) : M A := fun st => (r, st).

(** [try: m except Exception as e: h e]. *)
Definition try_except {A : Type} (m : M A) (h : exn -> M A) : M A :=
  fun st =>
    match m st with
    | (Ok a, st') => (Ok a, st')
    | (Raise e, st') => h e st'
    end.

Definition get : M state := fun st => (Ok st, st).

Definition modify (f : state -> state) : M unit := fun st => (Ok tt, f st).

Declare Scope monad_scope.
Delimit Scope monad_scope with monad.
Notation "x <- m ;; k" := (bind m (fun x => k))
  (at level 61, m at next level, right associativity) : monad_scope.
Notation "m ;; k" := (bind m (fun _ => k))
  (at level 61, right associativity) : monad_scope.
Notation "x <~ r ;; k" := (rbind r (fun x => k))
  (at level 61, r at next level, right associativity) : monad_scope.
Open Scope monad_scope.

Fixpoint mapM {A B : Type} (f : A -> M B) (l : list A) : M (list B) :=
  match l with
  | [] => ret []
  | x :: l' => y <- f x ;; ys <- mapM f l' ;; ret (y :: ys)
  end.

Fixpoint forM_ {A : Type} (l : list A) (f : A -> M unit) : M unit :=
  match l with
  | [] => ret tt
  | x :: l' => f x ;; forM_ l' f
  end.

Definition deref (r : ref) : M Pet := fun st => (Ok (heap st r), st).

Definition alloc (p : Pet) : M ref :=
  fun st =>
    (Ok (next_ref st), set_heap (upd (heap st) (next_ref st) p) (S (next_ref st)) st).

Definition assign (r : ref) (f : Pet -> Pet) : M unit :=
  modify (fun st => set_heap (upd (heap st) r (f (heap st r))) (next_ref st) st).

Definition print (d : diagnostic) : M unit :=
  modify (fun st => set_stdout (stdout st ++ [d]) st).

(** ** A calendar for the examples

    The development is parametric in the two conversions between dates and
    text (see the section below).  This instance is the proleptic Gregorian
    calendar of [datetime], for dates written with ASCII digits. *)
Module Calendar.

Definition is_leap (y : Z) : bool :=
  (y mod 4 =? 0) && (negb (y mod 100 =? 0) || (y mod 400 =? 0)).

Definition days_before_year (y : Z) : Z :=
  let y1 := y - 1 in y1 * 365 + y1 / 4 - y1 / 100 + y1 / 400.

Definition days_in_month (y m : Z) : Z :=
  if m =? 2 then (if is_leap y then 29 else 28)
  else if (m =? 4) || (m =? 6) || (m =? 9) || (m =? 11) then 30
  else 31.

Fixpoint days_before_month_aux (y : Z) (n : nat) : Z :=
  match n with
  | O => 0
  | S n' => days_before_month_aux y n' + days_in_month y (Z.of_nat n)
  end.

Definition days_before_month (y m : Z) : Z :=
  days_before_month_aux y (Z.to_nat (m - 1)).

Definition ymd2ord (y m d : Z) : Z :=
  days_before_year y + days_before_month y m + d.

(** The month and the day of the [n]-th day (from 0) of year [y]. *)
Fixpoint month_day (y n : Z) (m : Z) (fuel : nat) : Z * Z :=
  match fuel with
  | O => (m, n + 1)
  | S fuel' =>
      if n <? days_in_month y m then (m, n + 1)
      else month_day y (n - days_in_month y m) (m + 1) fuel'
  end.

Definition ord2ymd (o : Z) : Z * Z * Z :=
  let n := o - 1 in
  let n400 := n / 146097 in
  let n := n mod 146097 in
  let n100 := n / 36524 in
  let n := n mod 36524 in
  let n4 := n / 1461 in
  let n := n mod 1461 in
  let n1 := n / 365 in
  let n := n mod 365 in
  let y := n400 * 400 + 1 + n100 * 100 + n4 * 4 + n1 in
  if (n1 =? 4) || (n100 =? 4) then (y - 1, 12, 31)
  else let '(m, d) := month_day y n 1 11 in (y, m, d).

Definition digit_char (d : Z) : ascii :=
  ascii_of_nat (48 + Z.to_nat (d mod 10)).

Definition two_digits (n : Z) : string :=
  String (digit_char (n / 10)) (String (digit_char n) EmptyString).

Definition four_digits (n : Z) : string :=
  String (digit_char (n / 1000)) (String (digit_char (n / 100))
    (two_digits (n mod 100))).

Definition format_ymd (o : Z) : string :=
  let '(y, m, d) := ord2ymd o in
  (four_digits y ++ "-" ++ two_digits m ++ "-" ++ two_digits d)%string.

Definition digit_val (c : ascii) : option Z :=
  let n := nat_of_ascii c in
  if (Nat.leb 48 n && Nat.leb n 57)%bool then Some (Z.of_nat (n - 48)) else None.

(** The number a string of digits spells, given the value [acc] so far. *)
Fixpoint number (s : string) (acc : Z) : option Z :=
  match s with
  | EmptyString => Some acc
  | String c s' =>
      match digit_val c with
      | Some d => number s' (acc * 10 + d)
      | None => None
      end
  end.

(** The text before the first ["-"] and the text after it. *)
Fixpoint split_dash (s : string) : string * option string :=
  match s with
  | EmptyString => (EmptyString, None)
  | String c s' =>
      if Ascii.eqb c "-"%char then (EmptyString, Some s')
      else let '(a, b) := split_dash s' in (String c a, b)
  end.

Definition field (s : string) (lo hi : nat) : option Z :=
  let n := String.length s in
  if (Nat.leb lo n && Nat.leb n hi)%bool then number s 0 else None.

Definition parse_ymd (s : string) : option Z :=
  match split_dash s with
  | (ys, Some rest) =>
      match split_dash rest with
      | (ms, Some ds) =>
          match field ys 4 4, field ms 1 2, field ds 1 2 with
          | Some y, Some m, Some d =>
              if (1 <=? y) && (1 <=? m) && (m <=? 12)
                 && (1 <=? d) && (d <=? days_in_month y m)
              then Some (ymd2ord y m d) else None
          | _, _, _ => None
          end
      | _ => None
      end
  | _ => None
  end.

End Calendar.

(** ** Data for the examples *)

Module Sample.

(** The clock stays on 2024-01-11 (ordinal 738896) and moves on by a
    microsecond at each reading. *)
Definition clock (n : nat) : datetime := mkDatetime 738896 (Z.of_nat n).

(** The first reading is the last microsecond of 2024-01-11, the next ones
    fall on 2024-01-12 (ordinal 738897). *)
Definition clock_midnight (n : nat) : datetime :=
  match n with
  | O => mkDatetime 738896 (day_us - 1)
  | S _ => mkDatetime 738897 (Z.of_nat n)
  end.

Definition io_ok (n : nat) : io_outcome := IoOk.

(** The disk is full: every write stops half way. *)
Definition io_full (n : nat) : io_outcome := TransferFails OSError.

Definition entry (task : string) (frequency_days : Z) (last_done : string)
  : value :=
  VDict [("task", VStr task);
         ("frequency_days", VInt frequency_days);
         ("last_done", VStr last_done)].

Definition rex : Pet :=
  mkPet (Dog (VStr "Medium")) (VStr "Rex") (VInt 3) (VStr "Mixed")
        (VList [entry "Walk" 1 "2024-01-10";
                entry "Bath" 7 "2024-01-08";
                entry "Feed" 1 "2024-01-01"])
        (VList [VDict [("type", VStr "Checkup");
                       ("description", VStr "All fine");
                       ("date", VStr "2023-12-01")]]).

Definition tom : Pet :=
  mkPet (Cat (VBool false)) (VStr "Tom") (VInt 5) (VStr "Siamese")
        (VList []) (VList []).

(** Two pets are called Rex. *)
Definition objects (r : ref) : Pet :=
  match r with
  | 1%nat => tom
  | _ => rex
  end.

Definition st : state :=
  mkState objects 3%nat [0; 1; 2]%nat NoFile [] 0%nat 0%nat.

Definition good_record : list (string * value) :=
  [("type", VStr "Cat"); ("name", VStr "Tom");
   ("age", VInt 5); ("breed", VStr "Siamese")].

Definition dog_record : list (string * value) :=
  [("type", VStr "Dog"); ("name", VStr "Rex");
   ("age", VInt 3); ("breed", VStr "Mixed")].

Definition bird_record : list (string * value) :=
  [("type", VStr "Bird"); ("name", VStr "Kiwi");
   ("age", VInt 1); ("breed", VStr "Budgerigar")].

Definition bad_record : list (string * value) :=
  [("type", VStr "Fish"); ("name", VStr "Wanda");
   ("age", VInt 1); ("breed", VStr "Guppy")].

(** Nothing in memory, two records in the file. *)
Definition st_file : state :=
  mkState objects 3%nat []
          (JsonDoc (VList [VDict good_record; VDict bad_record])) [] 0%nat 0%nat.

(** A pet as a damaged file can leave it: no schedule and no records. *)
Definition odd : Pet :=
  mkPet (Cat (VBool true)) (VStr "Odd") (VInt 1) (VStr "Mixed")
        VNone (VStr "none").

Definition st_odd : state :=
  mkState (fun _ => odd) 1%nat [0%nat] NoFile [] 0%nat 0%nat.

(** A pet whose second entry has lost its date. *)
Definition broken : Pet :=
  mkPet (Dog (VStr "Small")) (VStr "Bo") (VInt 2) (VStr "Mixed")
        (VList [entry "Walk" 1 "2024-01-10";
                VDict [("task", VStr "Bath"); ("frequency_days", VInt 7)];
                entry "Feed" 1 "2024-01-01"])
        (VList []).

(** A pet whose only entry has a date and a cadence but no label. *)
Definition unlabelled : Pet :=
  mkPet (Dog (VStr "Small")) (VStr "Bo") (VInt 2) (VStr "Mixed")
        (VList [VDict [("frequency_days", VInt 7);
                       ("last_done", VStr "2024-01-08")]])
        (VList []).

(** Rex first, then the pet with the damaged schedule, then Tom. *)
Definition objects_broken (r : ref) : Pet :=
  match r with
  | 0%nat => rex
  | 1%nat => broken
  | 2%nat => tom
  | _ => unlabelled
  end.

Definition st_broken : state :=
  mkState objects_broken 4%nat [0; 1; 2]%nat NoFile [] 0%nat 0%nat.

(** A new pet called Bo, made but not yet in the collection. *)
Definition st_new : state :=
  mkState objects_broken 4%nat [0; 2]%nat NoFile [] 0%nat 0%nat.

End Sample.

Section PetCare.

(** ** The environment *)

(** [strftime_ymd d] is the text ["%Y-%m-%d"] of the date with ordinal [d];
    [strptime_ymd s] is the ordinal of the date that [s] spells in that
    format, or nothing when [datetime.strptime] raises [ValueError]. *)
Variable strftime_ymd : Z -> string.
Variable strptime_ymd : string -> option Z.

(** The successive readings of the clock and outcomes of file operations. *)
Variable clock : nat -> datetime.
Variable io : nat -> io_outcome.

(** [datetime.now()]. *)
Definition datetime_now : M datetime :=
  fun st => (Ok (clock (ticks st)), tick st).

(** [t.strftime("%Y-%m-%d")]. *)
Definition strftime (t : datetime) : value := VStr (strftime_ymd (dt_date t)).

(** [datetime.strptime(v, "%Y-%m-%d")]: midnight of the date. *)
Definition strptime (v : value) : result datetime :=
  match v with
  | VStr s =>
      match strptime_ymd s with
      | Some d => Ok (mkDatetime d 0)
      | None => Raise ValueError
      end
  | _ => Raise TypeError
  end.

Definition next_io : M io_outcome :=
  fun st => (Ok (io (io_ops st)), count_io st).

(** ** class Pet *)

Definition Pet_init (k : Variant) (name age breed : value) : M ref :=
  alloc (mkPet k name age breed (VList []) (VList [])).

(** [last_done] is [VNone] when the argument is left out.  The pet's list
    is extended in place; the model records the new content in this pet.
    When another pet holds the same list object, as after
    [create_pet_from_data] on the dictionary [to_dict] built in memory, the
    code shows the new entry there too: that is outside the model, and the
    statements about this method speak of this pet only. *)
Definition add_care_task (self : ref) (task frequency_days last_done : value)
  : M unit :=
  last_done <- match last_done with
               | VNone => now <- datetime_now ;; ret (strftime now)
               | _ => ret last_done
               end ;;
  p <- deref self ;;
  match care_schedule p with
  | VList l =>
      assign self
        (with_care_schedule
           (VList (l ++ [VDict [("task", task);
                                ("frequency_days", frequency_days);
                                ("last_done", last_done)]])))
  | _ => raise AttributeError
  end.

(** [date] is [VNone] when the argument is left out.  As for
    [add_care_task], the list is extended in place and the model records
    the new content in this pet only. *)
Definition add_health_record (self : ref) (record_type description date : value)
  : M unit :=
  date <- match date with
          | VNone => now <- datetime_now ;; ret (strftime now)
          | _ => ret date
          end ;;
  p <- deref self ;;
  match health_records p with
  | VList l =>
      assign self
        (with_health_records
           (VList (l ++ [VDict [("type", record_type);
                                ("description", description);
                                ("date", date)]])))
  | _ => raise AttributeError
  end.

(** The loop of [get_overdue_tasks]; [overdue] is the list built so far. *)
Fixpoint overdue_loop (current_date : datetime) (tasks overdue : list value)
  : result (list value) :=
  match tasks with
  | [] => Ok overdue
  | task :: rest =>
      s <~ py_getitem task "last_done" ;;
      last_done <~ strptime s ;;
      let days_since := timedelta_days current_date last_done in
      f <~ py_getitem task "frequency_days" ;;
      fz <~ py_int f ;;
      if days_since >=? fz then
        t <~ py_getitem task "task" ;;
        f' <~ py_getitem task "frequency_days" ;;
        fz' <~ py_int f' ;;
        overdue_loop current_date rest
          (overdue ++ [VDict [("task", t);
                              ("days_overdue", VInt (days_since - fz' + 1))]])
      else overdue_loop current_date rest overdue
  end.

Definition get_overdue_tasks (self : ref) : M value :=
  current_date <- datetime_now ;;
  p <- deref self ;;
  lift (tasks <~ py_iter (care_schedule p) ;;
        overdue <~ overdue_loop current_date tasks [] ;;
        Ok (VList overdue)).

Definition Pet_to_dict (self : ref) : M value :=
  p <- deref self ;;
  ret (VDict [("type", VStr (class_name (kind p)));
              ("name", name p);
              ("age", age p);
              ("breed", breed p);
              ("care_schedule", care_schedule p);
              ("health_records", health_records p)]).

(** [to_dict] as each subclass overrides it. *)
Definition to_dict (self : ref) : M value :=
  data <- Pet_to_dict self ;;
  p <- deref self ;;
  match kind p with
  | Dog size => lift (py_setitem data "size" size)
  | Cat indoor => lift (py_setitem data "indoor" indoor)
  | Bird can_fly => lift (py_setitem data "can_fly" can_fly)
  end.

(** ** classes Dog, Cat, Bird *)

Definition or_default (d : value) (o : option value) : value :=
  match o with
  | Some v => v
  | None => d
  end.

(** An argument left out is [None] here and takes the default of the
    signature. *)
Definition Dog_init (name age : value) (breed size : option value) : M ref :=
  self <- Pet_init (Dog (or_default (VStr "Medium") size)) name age
                   (or_default (VStr "Mixed") breed) ;;
  add_care_task self (VStr "Walk") (VInt 1) VNone ;;
  add_care_task self (VStr "Feed") (VInt 1) VNone ;;
  add_care_task self (VStr "Bath") (VInt 7) VNone ;;
  add_care_task self (VStr "Vet Checkup") (VInt 90) VNone ;;
  ret self.

Definition Cat_init (name age : value) (breed indoor : option value) : M ref :=
  self <- Pet_init (Cat (or_default (VBool true) indoor)) name age
                   (or_default (VStr "Mixed") breed) ;;
  add_care_task self (VStr "Feed") (VInt 1) VNone ;;
  add_care_task self (VStr "Litter Box Clean") (VInt 2) VNone ;;
  add_care_task self (VStr "Brush") (VInt 3) VNone ;;
  add_care_task self (VStr "Vet Checkup") (VInt 90) VNone ;;
  ret self.

Definition Bird_init (name age : value) (breed can_fly : option value) : M ref :=
  self <- Pet_init (Bird (or_default (VBool true) can_fly)) name age
                   (or_default (VStr "Unknown") breed) ;;
  add_care_task self (VStr "Feed") (VInt 1) VNone ;;
  add_care_task self (VStr "Cage Clean") (VInt 3) VNone ;;
  add_care_task self (VStr "Wing Trim") (VInt 60) VNone ;;
  add_care_task self (VStr "Vet Checkup") (VInt 180) VNone ;;
  ret self.

(** ** class PetCareManager *)

Definition save_data : M unit :=
  try_except
    (st <- get ;;
     data <- mapM to_dict (pets st) ;;
     o <- next_io ;;
     match o with
     | IoOk => modify (set_disk (JsonDoc (VList data)))
     | OpenFails e => raise e
     | TransferFails e => modify (set_disk Garbage) ;; raise e
     end)
    (fun e => print (ErrorSaving e)).

Definition add_pet (pet : ref) : M unit :=
  modify (fun st => set_pets (pets st ++ [pet]) st) ;;
  save_data.

Definition remove_pet (pet_name : value) : M unit :=
  modify (fun st =>
            set_pets (filter (fun pet => negb (py_eq (name (heap st pet)) pet_name))
                             (pets st)) st) ;;
  save_data.

Definition get_pet_by_name (n : value) : M (option ref) :=
  st <- get ;;
  ret (find (fun pet => py_eq (name (heap st pet)) n) (pets st)).

(** The inner loop of [get_all_overdue_tasks]: the overdue tasks of one
    pet, each tagged with the pet's name, go to the end of [all_overdue]. *)
Fixpoint tag_loop (pet_name : value) (overdue all_overdue : list value)
  : result (list value) :=
  match overdue with
  | [] => Ok all_overdue
  | task :: rest =>
      t <~ py_getitem task "task" ;;
      d <~ py_getitem task "days_overdue" ;;
      tag_loop pet_name rest
        (all_overdue ++ [VDict [("pet_name", pet_name);
                                ("task", t);
                                ("days_overdue", d)]])
  end.

(** The outer loop of [get_all_overdue_tasks]. *)
Fixpoint all_overdue_loop (l : list ref) (all_overdue : list value)
  : M (list value) :=
  match l with
  | [] => ret all_overdue
  | pet :: rest =>
      overdue <- get_overdue_tasks pet ;;
      tasks <- lift (py_iter overdue) ;;
      p <- deref pet ;;
      all_overdue <- lift (tag_loop (name p) tasks all_overdue) ;;
      all_overdue_loop rest all_overdue
  end.

Definition get_all_overdue_tasks : M value :=
  st <- get ;;
  all_overdue <- all_overdue_loop (pets st) [] ;;
  ret (VList all_overdue).

Definition create_pet_from_data (data : value) : M (option ref) :=
  try_except
    (pet_type <- lift (py_getitem data "type") ;;
     name <- lift (py_getitem data "name") ;;
     age <- lift (py_getitem data "age") ;;
     breed <- lift (py_getitem data "breed") ;;
     made <- (if py_eq pet_type (VStr "Dog") then
                size <- lift (py_get data "size" (VStr "Medium")) ;;
                pet <- Dog_init name age (Some breed) (Some size) ;;
                ret (Some pet)
              else if py_eq pet_type (VStr "Cat") then
                indoor <- lift (py_get data "indoor" (VBool true)) ;;
                pet <- Cat_init name age (Some breed) (Some indoor) ;;
                ret (Some pet)
              else if py_eq pet_type (VStr "Bird") then
                can_fly <- lift (py_get data "can_fly" (VBool true)) ;;
                pet <- Bird_init name age (Some breed) (Some can_fly) ;;
                ret (Some pet)
              else ret None) ;;
     match made with
     | None => ret None
     | Some pet =>
         cs <- lift (py_get data "care_schedule" (VList [])) ;;
         assign pet (with_care_schedule cs) ;;
         hr <- lift (py_get data "health_records" (VList [])) ;;
         assign pet (with_health_records hr) ;;
         ret (Some pet)
     end)
    (fun e => print (ErrorCreating e) ;; ret None).

(** Reading the file: the document it holds, or the exception of [open],
    of the read or of [json.load]. *)
Definition read_json : M value :=
  o <- next_io ;;
  match o with
  | IoOk =>
      st <- get ;;
      match disk st with
      | JsonDoc v => ret v
      | Garbage => raise ValueError
      | NoFile => raise OSError
      end
  | OpenFails e => raise e
  | TransferFails e => raise e
  end.

Definition load_data : M unit :=
  try_except
    (st <- get ;;
     match disk st with
     | NoFile => ret tt
     | _ =>
         data <- read_json ;;
         records <- lift (py_iter data) ;;
         forM_ records
           (fun pet_data =>
              pet <- create_pet_from_data pet_data ;;
              match pet with
              | Some pet => modify (fun st => set_pets (pets st ++ [pet]) st)
              | None => ret tt
              end)
     end)
    (fun e => print (ErrorLoading e)).

(** ** Definitions for the statements *)

(** A care-schedule entry read as data: its label, its cadence in days and
    the ordinal of the date it was last done. *)
Record CareEntry : Type := mkCareEntry {
  ce_task : value;
  ce_frequency_days : Z;
  ce_last_done : Z
}.

(** The dictionary [v] is the stored form of the entry [e]. *)
Definition is_entry (v : value) (e : CareEntry) : Prop :=
  exists d s,
    v = VDict d
    /\ dict_get "task" d = Some (ce_task e)
    /\ dict_get "frequency_days" d = Some (VInt (ce_frequency_days e))
    /\ dict_get "last_done" d = Some (VStr s)
    /\ strptime_ymd s = Some (ce_last_done e).

(** One line of the answer of the overdue query. *)
Definition report (task : value) (days_overdue : Z) : value :=
  VDict [("task", task); ("days_overdue", VInt days_overdue)].

(** At reference date [r]: an entry is listed when [r - last_done] has
    reached its cadence, with [days_overdue] counted from 1; the others are
    left out; the order is that of the schedule. *)
Definition spec_overdue (r : Z) (es : list CareEntry) : list value :=
  flat_map
    (fun e =>
       let days_since := r - ce_last_done e in
       if days_since >=? ce_frequency_days e
       then [report (ce_task e) (days_since - ce_frequency_days e + 1)]
       else [])
    es.


(** The date an omitted argument stands for: today's, from the clock. *)
Definition date_or_today (date : value) (st : state) : value :=
  match date with
  | VNone => strftime (clock (ticks st))
  | _ => date
  end.

(** The clock is read only when the argument is left out. *)
Definition reads_clock (date : value) (st : state) : state :=
  match date with
  | VNone => tick st
  | _ => st
  end.

(** A default entry, dated by the clock reading [t]. *)
Definition default_task (task : string) (frequency_days : Z) (t : datetime)
  : value :=
  VDict [("task", VStr task);
         ("frequency_days", VInt frequency_days);
         ("last_done", strftime t)].

(** [st'] is [st] after a constructor that read the clock four times made
    the object [p] at the next fresh reference. *)
Definition constructed (st st' : state) (p : Pet) : Prop :=
  heap st' (next_ref st) = p
  /\ (forall r, r <> next_ref st -> heap st' r = heap st r)
  /\ next_ref st' = S (next_ref st)
  /\ pets st' = pets st
  /\ disk st' = disk st
  /\ stdout st' = stdout st
  /\ io_ops st' = io_ops st
  /\ ticks st' = (4 + ticks st)%nat.

(** The key and the value of the attribute a class adds. *)
Definition own_attribute (k : Variant) : string * value :=
  match k with
  | Dog size => ("size", size)
  | Cat indoor => ("indoor", indoor)
  | Bird can_fly => ("can_fly", can_fly)
  end.

(** The dictionary [to_dict] builds for the object [p]. *)
Definition document (p : Pet) : list (string * value) :=
  [("type", VStr (class_name (kind p)));
   ("name", name p);
   ("age", age p);
   ("breed", breed p);
   ("care_schedule", care_schedule p);
   ("health_records", health_records p);
   own_attribute (kind p)].

(** An entry a constructor seeds on the date with ordinal [today]. *)
Definition seeded (task : string) (frequency_days today : Z) : value :=
  VDict [("task", VStr task);
         ("frequency_days", VInt frequency_days);
         ("last_done", VStr (strftime_ymd today))].

(** The value of an optional argument of a constructor. *)
Definition given_or (default : value) (given : option value) : value :=
  match given with
  | Some v => v
  | None => default
  end.

(** The schedules the three constructors seed, the four tasks dated [d0],
    [d1], [d2] and [d3]. *)
Definition dog_seeds (d0 d1 d2 d3 : Z) : list value :=
  [seeded "Walk" 1 d0; seeded "Feed" 1 d1;
   seeded "Bath" 7 d2; seeded "Vet Checkup" 90 d3].

Definition cat_seeds (d0 d1 d2 d3 : Z) : list value :=
  [seeded "Feed" 1 d0; seeded "Litter Box Clean" 2 d1;
   seeded "Brush" 3 d2; seeded "Vet Checkup" 90 d3].

Definition bird_seeds (d0 d1 d2 d3 : Z) : list value :=
  [seeded "Feed" 1 d0; seeded "Cage Clean" 3 d1;
   seeded "Wing Trim" 60 d2; seeded "Vet Checkup" 180 d3].

(** What a freshly constructed object shows: it is of variant [k], its
    schedule is [schedule], and its dictionary has the type [tag], that
    schedule, and the value [attribute] under [key]. *)
Definition fresh_pet (out : result ref * state) (st : state) (k : Variant)
    (tag key : string) (attribute : value) (schedule : list value) : Prop :=
  fst out = Ok (next_ref st)
  /\ kind (heap (snd out) (next_ref st)) = k
  /\ care_schedule (heap (snd out) (next_ref st)) = VList schedule
  /\ exists d,
       to_dict (next_ref st) (snd out) = (Ok (VDict d), snd out)
       /\ dict_get "type" d = Some (VStr tag)
       /\ dict_get "care_schedule" d = Some (VList schedule)
       /\ dict_get key d = Some attribute.

(** The class and attribute a record names: nothing for a tag that is none
    of the three. *)
Definition record_variant (data pet_type : value) : result (option Variant) :=
  if py_eq pet_type (VStr "Dog") then
    size <~ py_get data "size" (VStr "Medium") ;; Ok (Some (Dog size))
  else if py_eq pet_type (VStr "Cat") then
    indoor <~ py_get data "indoor" (VBool true) ;; Ok (Some (Cat indoor))
  else if py_eq pet_type (VStr "Bird") then
    can_fly <~ py_get data "can_fly" (VBool true) ;; Ok (Some (Bird can_fly))
  else Ok None.

(** The pet a record describes, nothing for an unknown tag, and the
    exception for a record that cannot be read. *)
Definition record_pet (data : value) : result (option Pet) :=
  pet_type <~ py_getitem data "type" ;;
  name <~ py_getitem data "name" ;;
  age <~ py_getitem data "age" ;;
  breed <~ py_getitem data "breed" ;;
  k <~ record_variant data pet_type ;;
  match k with
  | None => Ok None
  | Some k =>
      cs <~ py_get data "care_schedule" (VList []) ;;
      hr <~ py_get data "health_records" (VList []) ;;
      Ok (Some (mkPet k name age breed cs hr))
  end.

(** The tag of a record is one of the three class names. *)
Definition recognized (pet_type : value) : bool :=
  match pet_type with
  | VStr s => String.eqb s "Dog" || String.eqb s "Cat" || String.eqb s "Bird"
  | _ => false
  end.

(** The attribute key of the class a recognized tag names, with the default
    of that class. *)
Definition attribute_default (pet_type : value) : string * value :=
  if py_eq pet_type (VStr "Dog") then ("size", VStr "Medium")
  else if py_eq pet_type (VStr "Cat") then ("indoor", VBool true)
  else ("can_fly", VBool true).

(** The documents of a list of objects, in order. *)
Definition documents (st : state) (l : list ref) : list value :=
  map (fun r => VDict (document (heap st r))) l.

(** The state a call of [save_data] leaves, by the answer of the file
    system. *)
Definition saved (st : state) : state :=
  match io (io_ops st) with
  | IoOk => set_disk (JsonDoc (VList (documents st (pets st)))) (count_io st)
  | OpenFails e => set_stdout (stdout st ++ [ErrorSaving e]) (count_io st)
  | TransferFails e =>
      set_stdout (stdout st ++ [ErrorSaving e]) (set_disk Garbage (count_io st))
  end.

(** The pet [p] is called [n]. *)
Definition has_name (n : string) (p : Pet) : bool :=
  match name p with
  | VStr s => String.eqb s n
  | _ => false
  end.

(** A record is malformed when it is not a dictionary, when one of the
    fields type, name, age, breed is missing, or when its tag is none of
    Dog, Cat, Bird. *)
Definition malformed (pet_data : value) : bool :=
  match pet_data with
  | VDict d =>
      match dict_get "type" d, dict_get "name" d,
            dict_get "age" d, dict_get "breed" d with
      | Some ty, Some _, Some _, Some _ => negb (recognized ty)
      | _, _, _, _ => true
      end
  | _ => true
  end.

(** The records [load_data] keeps. *)
Definition well_formed (pet_data : value) : bool := negb (malformed pet_data).

(** From [st] to [st'], the records [good] were made into pets, one after
    the other at fresh references, and appended to the collection; the
    objects that were there are as they were. *)
Definition loaded (st st' : state) (good : list value) : Prop :=
  pets st' = pets st ++ seq (next_ref st) (List.length good)
  /\ next_ref st' = (next_ref st + List.length good)%nat
  /\ Forall2 (fun r pet_data => record_pet pet_data = Ok (Some (heap st' r)))
             (seq (next_ref st) (List.length good)) good
  /\ (forall r, (r < next_ref st)%nat -> heap st' r = heap st r).

(** The body of the loop of [load_data]. *)
Definition load_record (pet_data : value) : M unit :=
  pet <- create_pet_from_data pet_data ;;
  match pet with
  | Some pet => modify (fun st => set_pets (pets st ++ [pet]) st)
  | None => ret tt
  end.

(** The tasks each constructor seeds, read as entries last done on the date
    with ordinal [today]. *)
Definition dog_defaults (today : Z) : list CareEntry :=
  [mkCareEntry (VStr "Walk") 1 today;
   mkCareEntry (VStr "Feed") 1 today;
   mkCareEntry (VStr "Bath") 7 today;
   mkCareEntry (VStr "Vet Checkup") 90 today].

Definition cat_defaults (today : Z) : list CareEntry :=
  [mkCareEntry (VStr "Feed") 1 today;
   mkCareEntry (VStr "Litter Box Clean") 2 today;
   mkCareEntry (VStr "Brush") 3 today;
   mkCareEntry (VStr "Vet Checkup") 90 today].

Definition bird_defaults (today : Z) : list CareEntry :=
  [mkCareEntry (VStr "Feed") 1 today;
   mkCareEntry (VStr "Cage Clean") 3 today;
   mkCareEntry (VStr "Wing Trim") 60 today;
   mkCareEntry (VStr "Vet Checkup") 180 today].

(** The state after [n] more readings of the clock and nothing else. *)
Definition ticked (n : nat) (st : state) : state :=
  mkState (heap st) (next_ref st) (pets st) (disk st) (stdout st)
          (n + ticks st) (io_ops st).

(** One line of the answer of [get_all_overdue_tasks]. *)
Definition tagged (pet_name task : value) (days_overdue : Z) : value :=
  VDict [("pet_name", pet_name); ("task", task);
         ("days_overdue", VInt days_overdue)].

(** The overdue entries of one pet at date [r], under the pet's name. *)
Definition spec_pet_overdue (r : Z) (pet_name : value) (es : list CareEntry)
  : list value :=
  flat_map
    (fun e =>
       let days_since := r - ce_last_done e in
       if days_since >=? ce_frequency_days e
       then [tagged pet_name (ce_task e) (days_since - ce_frequency_days e + 1)]
       else [])
    es.

(** The overdue entries of the pets [l] at date [r], pet after pet, where
    [entries pet] is the schedule of [pet] read as data. *)
Definition spec_all_overdue (r : Z) (st : state)
    (entries : ref -> list CareEntry) (l : list ref) : list value :=
  flat_map (fun pet => spec_pet_overdue r (name (heap st pet)) (entries pet)) l.

(** The first of the four required fields that the record [d] lacks, in the
    order [create_pet_from_data] reads them. *)
Definition first_missing (d : list (string * value)) : option string :=
  find (fun k => match dict_get k d with Some _ => false | None => true end)
       ["type"; "name"; "age"; "breed"].

(** ** Basic facts *)

Lemma upd_eq (h : ref -> Pet) (r : ref) (p : Pet) : upd h r p r = p.
Proof. unfold upd. now rewrite Nat.eqb_refl. Qed.

Lemma upd_neq (h : ref -> Pet) (r r' : ref) (p : Pet) :
  r' <> r -> upd h r p r' = h r'.
Proof.
  intros Hne. unfold upd.
  destruct (Nat.eqb r' r) eqn:E; [apply Nat.eqb_eq in E; contradiction | reflexivity].
Qed.

(** Whole days between a moment of day [r] and the midnight of day [d]. *)
Lemma timedelta_days_midnight (now : datetime) (d : Z) :
  valid_time now ->
  timedelta_days now (mkDatetime d 0) = dt_date now - d.
Proof.
  unfold valid_time, timedelta_days. cbn [dt_date dt_time]. intros Hv.
  rewrite Z.sub_0_r, Z.div_add_l by (unfold day_us; lia).
  rewrite Z.div_small by exact Hv. lia.
Qed.

Lemma strptime_midnight (v : value) (t : datetime) :
  strptime v = Ok t -> dt_time t = 0.
Proof.
  destruct v; cbn; try discriminate.
  destruct (strptime_ymd s); [|discriminate].
  intros [= <-]. reflexivity.
Qed.

(** The query reads the clock once and touches nothing else. *)
Lemma get_overdue_tasks_run (self : ref) (st : state) :
  get_overdue_tasks self st =
  (tasks <~ py_iter (care_schedule (heap st self)) ;;
   overdue <~ overdue_loop (clock (ticks st)) tasks [] ;;
   Ok (VList overdue),
   tick st).
Proof. reflexivity. Qed.

Lemma overdue_loop_spec (now : datetime) (vs : list value) (es : list CareEntry) :
  valid_time now ->
  Forall2 is_entry vs es ->
  forall acc,
    overdue_loop now vs acc = Ok (acc ++ spec_overdue (dt_date now) es).
Proof.
  intros Hv HF. induction HF as [|v e vs es He _ IH]; intros acc.
  - cbn. now rewrite app_nil_r.
  - destruct He as (d & s & -> & Ht & Hf & Hl & Hp).
    cbn [overdue_loop py_getitem rbind]. rewrite Hl.
    cbn [rbind strptime]. rewrite Hp. cbn [rbind].
    rewrite Hf. cbn [rbind py_int].
    rewrite timedelta_days_midnight by exact Hv.
    cbn [spec_overdue flat_map].
    destruct (dt_date now - ce_last_done e >=? ce_frequency_days e).
    + rewrite Ht. cbn [rbind]. rewrite IH.
      unfold report. now rewrite <- app_assoc.
    + rewrite IH. reflexivity.
Qed.

(** The loop sees the clock reading only through its date. *)
Lemma overdue_loop_same_date (now1 now2 : datetime) :
  valid_time now1 -> valid_time now2 -> dt_date now1 = dt_date now2 ->
  forall vs acc, overdue_loop now1 vs acc = overdue_loop now2 vs acc.
Proof.
  intros H1 H2 Hd vs. induction vs as [|v vs IH]; intros acc; [reflexivity|].
  cbn [overdue_loop].
  destruct (py_getitem v "last_done") as [s|]; cbn [rbind]; [|reflexivity].
  destruct (strptime s) as [t|] eqn:Es; cbn [rbind]; [|reflexivity].
  assert (Ht : t = mkDatetime (dt_date t) 0).
  { apply strptime_midnight in Es. destruct t; cbn in *; now subst. }
  rewrite Ht, !timedelta_days_midnight, Hd by assumption.
  destruct (py_getitem v "frequency_days") as [f|]; cbn [rbind]; [|reflexivity].
  destruct (py_int f) as [fz|]; cbn [rbind]; [|reflexivity].
  destruct (_ >=? fz); [|apply IH].
  destruct (py_getitem v "task"); cbn [rbind]; [apply IH | reflexivity].
Qed.

(** ** The overdue query *)

(** C1. For a pet whose schedule holds well-formed entries, the query at a
    clock reading of date [r] returns, in schedule order, exactly the entries
    with [r - last_done >= frequency_days], each reported with
    [days_overdue = r - last_done - frequency_days + 1]; so an entry of
    cadence [f >= 1] last done on [d] is reported with [k + 1] at
    [r = d + f + k], and is left out while [r - d < f]. *)
Theorem overdue_tasks_spec (st : state) (self : ref)
    (vs : list value) (es : list CareEntry) :
  care_schedule (heap st self) = VList vs ->
  Forall2 is_entry vs es ->
  valid_time (clock (ticks st)) ->
  fst (get_overdue_tasks self st)
  = Ok (VList (spec_overdue (dt_date (clock (ticks st))) es))
  /\ (forall e k, 1 <= ce_frequency_days e -> 0 <= k ->
        spec_overdue (ce_last_done e + ce_frequency_days e + k) [e]
        = [report (ce_task e) (k + 1)])
  /\ (forall e r, r - ce_last_done e < ce_frequency_days e ->
        spec_overdue r [e] = [])
  /\ (forall r es1 es2,
        spec_overdue r (es1 ++ es2) = spec_overdue r es1 ++ spec_overdue r es2).
Proof.
  intros Hs HF Hv. repeat split.
  - rewrite get_overdue_tasks_run, Hs. cbn [fst py_iter rbind].
    rewrite (overdue_loop_spec _ _ _ Hv HF). reflexivity.
  - intros e k Hf Hk. cbn [spec_overdue flat_map]. rewrite app_nil_r.
    replace (ce_last_done e + ce_frequency_days e + k - ce_last_done e)
      with (ce_frequency_days e + k) by lia.
    destruct (Z.geb_spec (ce_frequency_days e + k) (ce_frequency_days e)); [|lia].
    do 2 f_equal. lia.
  - intros e r Hr. cbn [spec_overdue flat_map].
    destruct (Z.geb_spec (r - ce_last_done e) (ce_frequency_days e)); [lia|reflexivity].
  - intros r es1 es2. unfold spec_overdue. apply flat_map_app.
Qed.

(** C9. The overdue query is a read: whatever the pet holds, and whether or
    not the query raises, the state after it is the state before with one
    more clock reading taken, so every object, the collection, the file and
    the console are as they were; and a second query whose clock reading
    falls on the same date answers as the first did. *)
Theorem overdue_tasks_pure (st : state) (self : ref) :
  snd (get_overdue_tasks self st) = tick st
  /\ heap (snd (get_overdue_tasks self st)) = heap st
  /\ pets (snd (get_overdue_tasks self st)) = pets st
  /\ disk (snd (get_overdue_tasks self st)) = disk st
  /\ stdout (snd (get_overdue_tasks self st)) = stdout st
  /\ (valid_time (clock (ticks st)) ->
      valid_time (clock (S (ticks st))) ->
      dt_date (clock (S (ticks st))) = dt_date (clock (ticks st)) ->
      fst (get_overdue_tasks self (snd (get_overdue_tasks self st)))
      = fst (get_overdue_tasks self st)).
Proof.
  rewrite get_overdue_tasks_run. cbn [snd fst].
  repeat split.
  intros H1 H2 Hd. rewrite get_overdue_tasks_run. cbn [fst tick heap ticks].
  destruct (py_iter (care_schedule (heap st self))) as [tasks|]; cbn [rbind];
    [|reflexivity].
  now rewrite (overdue_loop_same_date _ _ H2 H1 Hd).
Qed.

(** ** Appending to a pet's sequences *)

Lemma add_care_task_run (st : state) (self : ref)
    (task frequency_days last_done : value) (l : list value) :
  care_schedule (heap st self) = VList l ->
  add_care_task self task frequency_days last_done st
  = (Ok tt,
     set_heap
       (upd (heap st) self
            (with_care_schedule
               (VList (l ++ [VDict [("task", task);
                                    ("frequency_days", frequency_days);
                                    ("last_done", date_or_today last_done st)]]))
               (heap st self)))
       (next_ref st) (reads_clock last_done st)).
Proof.
  intros Hl. unfold add_care_task, bind.
  destruct last_done; cbn; rewrite Hl; reflexivity.
Qed.



(** ** Construction *)

Ltac run_add_care_task :=
  erewrite add_care_task_run
    by (cbn [heap set_heap reads_clock tick]; rewrite upd_eq; reflexivity);
  cbn [reads_clock date_or_today ticks tick set_heap heap next_ref
       pets disk stdout io_ops].

Ltac run_constructor :=
  eexists; split;
  [ cbv beta delta [Dog_init Cat_init Bird_init Pet_init alloc bind ret];
    cbv beta iota; repeat run_add_care_task; rewrite ?upd_eq; reflexivity
  | unfold constructed;
    cbn [heap next_ref pets disk stdout io_ops ticks set_heap tick];
    repeat split;
    [ rewrite upd_eq; reflexivity
    | intros r Hr; rewrite !upd_neq by exact Hr; reflexivity ] ].

Lemma Dog_init_run (st : state) (name age : value) (breed size : option value) :
  exists st',
    Dog_init name age breed size st = (Ok (next_ref st), st')
    /\ constructed st st'
         (mkPet (Dog (or_default (VStr "Medium") size)) name age
                (or_default (VStr "Mixed") breed)
                (VList [default_task "Walk" 1 (clock (ticks st));
                        default_task "Feed" 1 (clock (1 + ticks st));
                        default_task "Bath" 7 (clock (2 + ticks st));
                        default_task "Vet Checkup" 90 (clock (3 + ticks st))])
                (VList [])).
Proof. run_constructor. Qed.

Lemma Cat_init_run (st : state) (name age : value) (breed indoor : option value) :
  exists st',
    Cat_init name age breed indoor st = (Ok (next_ref st), st')
    /\ constructed st st'
         (mkPet (Cat (or_default (VBool true) indoor)) name age
                (or_default (VStr "Mixed") breed)
                (VList [default_task "Feed" 1 (clock (ticks st));
                        default_task "Litter Box Clean" 2 (clock (1 + ticks st));
                        default_task "Brush" 3 (clock (2 + ticks st));
                        default_task "Vet Checkup" 90 (clock (3 + ticks st))])
                (VList [])).
Proof. run_constructor. Qed.

Lemma Bird_init_run (st : state) (name age : value) (breed can_fly : option value) :
  exists st',
    Bird_init name age breed can_fly st = (Ok (next_ref st), st')
    /\ constructed st st'
         (mkPet (Bird (or_default (VBool true) can_fly)) name age
                (or_default (VStr "Unknown") breed)
                (VList [default_task "Feed" 1 (clock (ticks st));
                        default_task "Cage Clean" 3 (clock (1 + ticks st));
                        default_task "Wing Trim" 60 (clock (2 + ticks st));
                        default_task "Vet Checkup" 180 (clock (3 + ticks st))])
                (VList [])).
Proof. run_constructor. Qed.

(** ** Serialization *)

(** [to_dict] reads the object and changes nothing. *)
Lemma to_dict_run (st : state) (self : ref) :
  to_dict self st = (Ok (VDict (document (heap st self))), st).
Proof.
  unfold to_dict, Pet_to_dict, bind, deref, ret, lift, document.
  destruct (kind (heap st self)); reflexivity.
Qed.

Lemma fresh_pet_intro (out : result ref * state) (st st' : state)
    (p : Pet) (tag key : string) (attribute : value) (schedule : list value) :
  out = (Ok (next_ref st), st') ->
  constructed st st' p ->
  care_schedule p = VList schedule ->
  class_name (kind p) = tag ->
  own_attribute (kind p) = (key, attribute) ->
  fresh_pet out st (kind p) tag key attribute schedule.
Proof.
  intros -> (Hp & _) Hs <- Ha. unfold fresh_pet. cbn [fst snd].
  rewrite Hp. repeat split; [exact Hs|].
  exists (document p). rewrite to_dict_run, Hp.
  split; [reflexivity|]. unfold document.
  destruct (kind p); injection Ha as <- <-; cbn; rewrite Hs; repeat split.
Qed.

(** C5, as amended.  A constructor reads the clock once for each task it
    seeds, so each seeded entry is last done on the date of its own
    reading.  A new Dog holds exactly Walk/1, Feed/1, Bath/7 and
    Vet Checkup/90, in that order, and its dictionary has type ["Dog"],
    that schedule and the size, which is ["Medium"] when none is given; a
    new Cat holds Feed/1, Litter Box Clean/2, Brush/3, Vet Checkup/90 with
    type ["Cat"] and [indoor], a new Bird Feed/1, Cage Clean/3,
    Wing Trim/60, Vet Checkup/180 with type ["Bird"] and [can_fly].  When
    the four readings fall on one date, the date of construction, every
    entry is last done on that date. *)
Theorem constructors_seed_defaults (st : state) (name age : value)
    (breed attr : option value) :
  let d := fun i : nat => dt_date (clock (i + ticks st)) in
  fresh_pet (Dog_init name age breed attr st) st
    (Dog (given_or (VStr "Medium") attr))
    "Dog" "size" (given_or (VStr "Medium") attr)
    (dog_seeds (d 0%nat) (d 1%nat) (d 2%nat) (d 3%nat))
  /\ fresh_pet (Cat_init name age breed attr st) st
       (Cat (given_or (VBool true) attr))
       "Cat" "indoor" (given_or (VBool true) attr)
       (cat_seeds (d 0%nat) (d 1%nat) (d 2%nat) (d 3%nat))
  /\ fresh_pet (Bird_init name age breed attr st) st
       (Bird (given_or (VBool true) attr))
       "Bird" "can_fly" (given_or (VBool true) attr)
       (bird_seeds (d 0%nat) (d 1%nat) (d 2%nat) (d 3%nat))
  /\ (forall today,
        (forall i, (i < 4)%nat -> d i = today) ->
        dog_seeds (d 0%nat) (d 1%nat) (d 2%nat) (d 3%nat)
        = dog_seeds today today today today
        /\ cat_seeds (d 0%nat) (d 1%nat) (d 2%nat) (d 3%nat)
           = cat_seeds today today today today
        /\ bird_seeds (d 0%nat) (d 1%nat) (d 2%nat) (d 3%nat)
           = bird_seeds today today today today).
Proof.
  intros d. split; [|split; [|split]].
  - destruct (Dog_init_run st name age breed attr) as (st' & Hrun & Hc).
    refine (fresh_pet_intro _ _ _ _ _ _ _ _ Hrun Hc eq_refl eq_refl _).
    destruct attr; reflexivity.
  - destruct (Cat_init_run st name age breed attr) as (st' & Hrun & Hc).
    refine (fresh_pet_intro _ _ _ _ _ _ _ _ Hrun Hc eq_refl eq_refl _).
    destruct attr; reflexivity.
  - destruct (Bird_init_run st name age breed attr) as (st' & Hrun & Hc).
    refine (fresh_pet_intro _ _ _ _ _ _ _ _ Hrun Hc eq_refl eq_refl _).
    destruct attr; reflexivity.
  - intros today Hday.
    rewrite (Hday 0%nat), (Hday 1%nat), (Hday 2%nat), (Hday 3%nat) by lia.
    repeat split.
Qed.

(** ** Deserialization *)

Lemma py_eq_str (v : value) (s : string) :
  py_eq v (VStr s) = true <-> v = VStr s.
Proof.
  destruct v; cbn; try (split; [discriminate | intros [=]]).
  rewrite String.eqb_eq. split; [now intros -> | now intros [= ->]].
Qed.

(** After a constructor, the two assignments of [create_pet_from_data]. *)
Lemma constructed_assign (st st' : state) (p : Pet) (cs hr : value) :
  constructed st st' p ->
  constructed st
    (set_heap
       (upd (upd (heap st') (next_ref st)
                 (with_care_schedule cs (heap st' (next_ref st))))
            (next_ref st)
            (with_health_records hr
               (with_care_schedule cs (heap st' (next_ref st)))))
       (next_ref st') st')
    (mkPet (kind p) (name p) (age p) (breed p) cs hr).
Proof.
  intros (Hp & Hframe & Hn & Hrest). unfold constructed.
  cbn [heap next_ref pets disk stdout io_ops ticks set_heap].
  split. { rewrite upd_eq, Hp. reflexivity. }
  split. { intros r Hr. rewrite !upd_neq by exact Hr. now apply Hframe. }
  split; [exact Hn | exact Hrest].
Qed.

Ltac run_create init_run :=
  match goal with
  | |- context [?init ?n ?a (Some ?b) (Some ?x) ?st] =>
      destruct (init_run st n a (Some b) (Some x)) as (st' & Hrun & Hc);
      rewrite Hrun; cbn [or_default] in Hc;
      eexists; split; [reflexivity|];
      cbn [heap next_ref set_heap];
      rewrite upd_eq;
      exact (constructed_assign _ _ _ _ _ Hc)
  end.

(** [create_pet_from_data] makes the pet the record describes at a fresh
    reference, or returns [None]: silently for an unknown tag, after a
    printed line for a record it cannot read. *)
Lemma create_pet_from_data_run (data : value) (st : state) :
  match record_pet data with
  | Ok (Some p) =>
      exists st',
        create_pet_from_data data st = (Ok (Some (next_ref st)), st')
        /\ constructed st st' p
  | Ok None => create_pet_from_data data st = (Ok None, st)
  | Raise e =>
      create_pet_from_data data st
      = (Ok None, set_stdout (stdout st ++ [ErrorCreating e]) st)
  end.
Proof.
  destruct data as [| | | | |d]; try reflexivity.
  unfold record_pet, create_pet_from_data, try_except, bind, lift, ret.
  cbn [py_getitem rbind].
  destruct (dict_get "type" d) as [ty|]; [|reflexivity].
  destruct (dict_get "name" d) as [n|]; [|reflexivity].
  destruct (dict_get "age" d) as [a|]; [|reflexivity].
  destruct (dict_get "breed" d) as [b|]; [|reflexivity].
  cbn [rbind]. unfold record_variant. cbn [py_get].
  destruct (py_eq ty (VStr "Dog")).
  { cbn [rbind].
    destruct (dict_get "size" d), (dict_get "care_schedule" d),
      (dict_get "health_records" d); cbn [rbind assign modify];
      run_create Dog_init_run. }
  destruct (py_eq ty (VStr "Cat")).
  { cbn [rbind].
    destruct (dict_get "indoor" d), (dict_get "care_schedule" d),
      (dict_get "health_records" d); cbn [rbind assign modify];
      run_create Cat_init_run. }
  destruct (py_eq ty (VStr "Bird")).
  { cbn [rbind].
    destruct (dict_get "can_fly" d), (dict_get "care_schedule" d),
      (dict_get "health_records" d); cbn [rbind assign modify];
      run_create Bird_init_run. }
  reflexivity.
Qed.

Lemma record_pet_document (p : Pet) :
  record_pet (VDict (document p)) = Ok (Some p).
Proof. destruct p as [[x|x|x] n a b cs hr]; reflexivity. Qed.

(** C2. For every pet object, of any class and with any attributes,
    schedule and records, [create_pet_from_data] applied to the dictionary
    [to_dict] returns makes a new object equal to the original in every
    field: class and its attribute, name, age, breed, care schedule and
    health records.  Every other object, the collection, the file and the
    console are untouched. *)
Theorem to_dict_roundtrip (st : state) (self : ref) :
  exists d st',
    to_dict self st = (Ok d, st)
    /\ create_pet_from_data d st = (Ok (Some (next_ref st)), st')
    /\ heap st' (next_ref st) = heap st self
    /\ (forall r, r <> next_ref st -> heap st' r = heap st r)
    /\ pets st' = pets st
    /\ disk st' = disk st
    /\ stdout st' = stdout st.
Proof.
  exists (VDict (document (heap st self))).
  pose proof (create_pet_from_data_run (VDict (document (heap st self))) st) as H.
  rewrite record_pet_document in H.
  destruct H as (st' & Hrun & Hp & Hframe & _ & Hpets & Hdisk & Hout & _).
  exists st'. rewrite to_dict_run. repeat split; assumption.
Qed.

(** A record with a recognized tag and the three common fields describes a
    pet of the class of the tag; each optional key gives its value when
    present and the default when absent. *)
Lemma record_pet_recognized (d : list (string * value)) (ty n a b : value) :
  dict_get "type" d = Some ty ->
  dict_get "name" d = Some n ->
  dict_get "age" d = Some a ->
  dict_get "breed" d = Some b ->
  recognized ty = true ->
  exists p,
    record_pet (VDict d) = Ok (Some p)
    /\ ty = VStr (class_name (kind p))
    /\ name p = n /\ age p = a /\ breed p = b
    /\ (fst (own_attribute (kind p)), snd (own_attribute (kind p)))
       = (fst (attribute_default ty),
          match dict_get (fst (attribute_default ty)) d with
          | Some v => v
          | None => snd (attribute_default ty)
          end)
    /\ care_schedule p
       = match dict_get "care_schedule" d with Some v => v | None => VList [] end
    /\ health_records p
       = match dict_get "health_records" d with Some v => v | None => VList [] end.
Proof.
  intros Ht Hn Ha Hb Hr.
  destruct ty as [| | |s| |]; try discriminate.
  unfold record_pet. cbn [py_getitem rbind]. rewrite Ht, Hn, Ha, Hb.
  cbn [rbind recognized] in *. unfold record_variant, attribute_default.
  cbn [py_eq py_get].
  destruct (String.eqb s "Dog") eqn:ED.
  { apply String.eqb_eq in ED. subst s. cbn.
    destruct (dict_get "size" d), (dict_get "care_schedule" d),
      (dict_get "health_records" d); cbn [rbind fst snd];
      eexists; repeat split. }
  destruct (String.eqb s "Cat") eqn:EC.
  { apply String.eqb_eq in EC. subst s. cbn.
    destruct (dict_get "indoor" d), (dict_get "care_schedule" d),
      (dict_get "health_records" d); cbn [rbind fst snd];
      eexists; repeat split. }
  destruct (String.eqb s "Bird") eqn:EB; [|discriminate].
  apply String.eqb_eq in EB. subst s. cbn.
  destruct (dict_get "can_fly" d), (dict_get "care_schedule" d),
    (dict_get "health_records" d); cbn [rbind fst snd];
    eexists; repeat split.
Qed.

Lemma class_name_Dog (k : Variant) :
  class_name k = "Dog" -> exists size, k = Dog size.
Proof. destruct k; try discriminate. now eexists. Qed.

Lemma class_name_Cat (k : Variant) :
  class_name k = "Cat" -> exists indoor, k = Cat indoor.
Proof. destruct k; try discriminate. now eexists. Qed.

Lemma class_name_Bird (k : Variant) :
  class_name k = "Bird" -> exists can_fly, k = Bird can_fly.
Proof. destruct k; try discriminate. now eexists. Qed.

(** C6. A record with a recognized tag and the fields name, age and breed
    makes a pet of the class the tag names; when the record has no key for
    the attribute of that class, the attribute is the default: size
    ["Medium"] for a Dog, indoor [True] for a Cat, can_fly [True] for a
    Bird. *)
Theorem missing_attribute_defaults (st : state) (d : list (string * value))
    (ty n a b : value) :
  dict_get "type" d = Some ty ->
  dict_get "name" d = Some n ->
  dict_get "age" d = Some a ->
  dict_get "breed" d = Some b ->
  recognized ty = true ->
  exists st',
    create_pet_from_data (VDict d) st = (Ok (Some (next_ref st)), st')
    /\ VStr (class_name (kind (heap st' (next_ref st)))) = ty
    /\ (ty = VStr "Dog" -> dict_get "size" d = None ->
        kind (heap st' (next_ref st)) = Dog (VStr "Medium"))
    /\ (ty = VStr "Cat" -> dict_get "indoor" d = None ->
        kind (heap st' (next_ref st)) = Cat (VBool true))
    /\ (ty = VStr "Bird" -> dict_get "can_fly" d = None ->
        kind (heap st' (next_ref st)) = Bird (VBool true)).
Proof.
  intros Ht Hn Ha Hb Hr.
  destruct (record_pet_recognized d ty n a b Ht Hn Ha Hb Hr)
    as (p & Hrec & Hty & _ & _ & _ & Hattr & _).
  pose proof (create_pet_from_data_run (VDict d) st) as H. rewrite Hrec in H.
  destruct H as (st' & Hrun & Hp & _).
  exists st'. rewrite Hp. split; [exact Hrun|]. split; [now rewrite Hty|].
  repeat split; intros E Hnone; rewrite E in Hty, Hattr; injection Hty as Hc;
    symmetry in Hc.
  - apply class_name_Dog in Hc. destruct Hc as (x & Hk). rewrite Hk in *.
    cbn in Hattr. rewrite Hnone in Hattr. now injection Hattr as ->.
  - apply class_name_Cat in Hc. destruct Hc as (x & Hk). rewrite Hk in *.
    cbn in Hattr. rewrite Hnone in Hattr. now injection Hattr as ->.
  - apply class_name_Bird in Hc. destruct Hc as (x & Hk). rewrite Hk in *.
    cbn in Hattr. rewrite Hnone in Hattr. now injection Hattr as ->.
Qed.

(** C10. A record with a recognized tag and the fields name, age and breed
    but no [care_schedule] key makes a pet whose care schedule is the empty
    list, not the tasks its constructor seeded; likewise a record with no
    [health_records] key makes a pet with no health records. *)
Theorem missing_sequences_are_empty (st : state) (d : list (string * value))
    (ty n a b : value) :
  dict_get "type" d = Some ty ->
  dict_get "name" d = Some n ->
  dict_get "age" d = Some a ->
  dict_get "breed" d = Some b ->
  recognized ty = true ->
  exists st',
    create_pet_from_data (VDict d) st = (Ok (Some (next_ref st)), st')
    /\ (dict_get "care_schedule" d = None ->
        care_schedule (heap st' (next_ref st)) = VList [])
    /\ (dict_get "health_records" d = None ->
        health_records (heap st' (next_ref st)) = VList []).
Proof.
  intros Ht Hn Ha Hb Hr.
  destruct (record_pet_recognized d ty n a b Ht Hn Ha Hb Hr)
    as (p & Hrec & _ & _ & _ & _ & _ & Hcs & Hhr).
  pose proof (create_pet_from_data_run (VDict d) st) as H. rewrite Hrec in H.
  destruct H as (st' & Hrun & Hp & _).
  exists st'. rewrite Hp. split; [exact Hrun|].
  split; intros Hnone; [rewrite Hnone in Hcs | rewrite Hnone in Hhr]; assumption.
Qed.

(** ** Persisting the collection *)

Lemma mapM_to_dict (l : list ref) (st : state) :
  mapM to_dict l st = (Ok (documents st l), st).
Proof.
  induction l as [|r l IH]; [reflexivity|].
  cbn [mapM]. unfold bind at 1. rewrite to_dict_run.
  unfold bind at 1. rewrite IH. reflexivity.
Qed.

Lemma save_data_run (st : state) : save_data st = (Ok tt, saved st).
Proof.
  unfold save_data, try_except, saved. unfold bind at 1. cbn [get].
  unfold bind at 1. rewrite mapM_to_dict.
  unfold bind, next_io. destruct (io (io_ops st)); reflexivity.
Qed.

Lemma saved_frame (st : state) :
  heap (saved st) = heap st
  /\ next_ref (saved st) = next_ref st
  /\ pets (saved st) = pets st
  /\ ticks (saved st) = ticks st.
Proof. unfold saved. destruct (io (io_ops st)); repeat split. Qed.

(** C7. [save_data] always returns normally.  When opening the file or
    writing to it raises, the exception is caught and one line reporting it
    is printed; the collection and every object in it are then what they
    were before the call.  (They are also untouched when the write
    succeeds, and the file then holds the documents of the collection.) *)
Theorem save_failure_contained (st : state) :
  fst (save_data st) = Ok tt
  /\ (forall e,
        io (io_ops st) = OpenFails e \/ io (io_ops st) = TransferFails e ->
        stdout (snd (save_data st)) = stdout st ++ [ErrorSaving e]
        /\ pets (snd (save_data st)) = pets st
        /\ heap (snd (save_data st)) = heap st
        /\ next_ref (snd (save_data st)) = next_ref st)
  /\ (forall e, io (io_ops st) = OpenFails e ->
        disk (snd (save_data st)) = disk st)
  /\ (io (io_ops st) = IoOk ->
        stdout (snd (save_data st)) = stdout st
        /\ pets (snd (save_data st)) = pets st
        /\ heap (snd (save_data st)) = heap st
        /\ disk (snd (save_data st))
           = JsonDoc (VList (documents st (pets st)))).
Proof.
  rewrite save_data_run. cbn [fst snd]. unfold saved.
  split; [reflexivity|]. split; [|split].
  - intros e [E|E]; rewrite E; repeat split.
  - intros e E. rewrite E. reflexivity.
  - intros E. rewrite E. repeat split.
Qed.

(** ** The collection *)

Lemma py_eq_has_name (n : string) (p : Pet) :
  py_eq (name p) (VStr n) = has_name n p.
Proof. unfold has_name. destruct (name p); reflexivity. Qed.

Lemma find_filter_negb {A : Type} (f : A -> bool) (l : list A) :
  find f (filter (fun x => negb (f x)) l) = None.
Proof.
  induction l as [|x l IH]; [reflexivity|].
  cbn [filter]. destruct (f x) eqn:E; cbn [negb]; [exact IH|].
  cbn [find]. now rewrite E.
Qed.

Lemma filter_all {A : Type} (f : A -> bool) (l : list A) :
  (forall x, In x l -> f x = true) -> filter f l = l.
Proof.
  induction l as [|x l IH]; intros H; [reflexivity|].
  cbn [filter]. rewrite (H x (or_introl eq_refl)).
  f_equal. apply IH. intros y Hy. apply H. now right.
Qed.

Lemma remove_pet_run (pet_name : value) (st : state) :
  remove_pet pet_name st
  = (Ok tt,
     saved (set_pets
              (filter (fun pet => negb (py_eq (name (heap st pet)) pet_name))
                      (pets st)) st)).
Proof.
  unfold remove_pet, bind, modify. now rewrite save_data_run.
Qed.

(** C4. [remove_pet] with a name string returns normally and keeps, in
    order, exactly the pets that are not called that name, so every pet of
    that name goes, not only the first; [get_pet_by_name] with the same name
    then finds none.  When no pet is called that name the collection is the
    one before the call. *)
Theorem remove_then_find (st : state) (n : string) :
  fst (remove_pet (VStr n) st) = Ok tt
  /\ pets (snd (remove_pet (VStr n) st))
     = filter (fun pet => negb (has_name n (heap st pet))) (pets st)
  /\ heap (snd (remove_pet (VStr n) st)) = heap st
  /\ fst (get_pet_by_name (VStr n) (snd (remove_pet (VStr n) st))) = Ok None
  /\ ((forall pet, In pet (pets st) -> has_name n (heap st pet) = false) ->
      pets (snd (remove_pet (VStr n) st)) = pets st).
Proof.
  rewrite remove_pet_run. cbn [fst snd].
  destruct (saved_frame
              (set_pets
                 (filter (fun pet => negb (py_eq (name (heap st pet)) (VStr n)))
                         (pets st)) st)) as (Hh & _ & Hp & _).
  cbn [heap pets set_pets] in Hh, Hp.
  assert (Hf : filter (fun pet => negb (py_eq (name (heap st pet)) (VStr n))) (pets st)
               = filter (fun pet => negb (has_name n (heap st pet))) (pets st)).
  { apply filter_ext. intros r. now rewrite py_eq_has_name. }
  split; [reflexivity|]. split; [now rewrite Hp|]. split; [exact Hh|]. split.
  - unfold get_pet_by_name, bind, get, ret. cbn [fst]. rewrite Hh, Hp.
    f_equal.
    apply (find_filter_negb (fun pet => py_eq (name (heap st pet)) (VStr n))).
  - intros Hnone. rewrite Hp, Hf. apply filter_all.
    intros r Hr. now rewrite (Hnone r Hr).
Qed.

(** ** Loading the collection *)

Lemma recognized_py_eq (ty : value) :
  recognized ty
  = py_eq ty (VStr "Dog") || py_eq ty (VStr "Cat") || py_eq ty (VStr "Bird").
Proof. destruct ty; reflexivity. Qed.

Lemma record_pet_malformed (pet_data : value) :
  malformed pet_data = true ->
  record_pet pet_data = Ok None \/ exists e, record_pet pet_data = Raise e.
Proof.
  destruct pet_data as [| | | | |d]; cbn [malformed];
    try (intros _; right; eexists; reflexivity).
  unfold record_pet. cbn [py_getitem].
  destruct (dict_get "type" d) as [ty|]; [|intros _; right; eexists; reflexivity].
  destruct (dict_get "name" d); [|intros _; right; eexists; reflexivity].
  destruct (dict_get "age" d); [|intros _; right; eexists; reflexivity].
  destruct (dict_get "breed" d); [|intros _; right; eexists; reflexivity].
  rewrite recognized_py_eq. intros H. apply negb_true_iff in H.
  apply orb_false_iff in H. destruct H as (H & HB).
  apply orb_false_iff in H. destruct H as (HD & HC).
  left. cbn [rbind]. unfold record_variant. now rewrite HD, HC, HB.
Qed.

Lemma record_pet_well_formed (pet_data : value) :
  malformed pet_data = false -> exists p, record_pet pet_data = Ok (Some p).
Proof.
  destruct pet_data as [| | | | |d]; cbn [malformed]; try discriminate.
  destruct (dict_get "type" d) as [ty|] eqn:Ht; [|discriminate].
  destruct (dict_get "name" d) as [n|] eqn:Hn; [|discriminate].
  destruct (dict_get "age" d) as [a|] eqn:Ha; [|discriminate].
  destruct (dict_get "breed" d) as [b|] eqn:Hb; [|discriminate].
  intros H. apply negb_false_iff in H.
  destruct (record_pet_recognized d ty n a b Ht Hn Ha Hb H) as (p & Hp & _).
  now exists p.
Qed.

Lemma loaded_same (st0 st st' : state) (good : list value) :
  pets st = pets st0 -> next_ref st = next_ref st0 -> heap st = heap st0 ->
  loaded st st' good -> loaded st0 st' good.
Proof.
  unfold loaded. intros Hp Hn Hh. rewrite Hp, Hn, Hh. tauto.
Qed.

Lemma load_loop_run (records : list value) :
  forall st, exists st',
    forM_ records load_record st = (Ok tt, st')
    /\ loaded st st' (filter well_formed records).
Proof.
  induction records as [|pet_data records IH]; intros st.
  - exists st. split; [reflexivity|]. unfold loaded. cbn.
    rewrite app_nil_r, Nat.add_0_r. repeat split. constructor.
  - cbn [forM_ filter]. unfold bind at 1. unfold load_record at 1.
    unfold bind at 1.
    pose proof (create_pet_from_data_run pet_data st) as Hrun.
    unfold well_formed at 1.
    destruct (malformed pet_data) eqn:Hm; cbn [negb].
    + apply record_pet_malformed in Hm. destruct Hm as [Hm|(e & Hm)];
        rewrite Hm in Hrun; rewrite Hrun; cbn [ret].
      * apply IH.
      * destruct (IH (set_stdout (stdout st ++ [ErrorCreating e]) st))
          as (st' & Hloop & Hl).
        exists st'. split; [exact Hloop|].
        now apply (loaded_same _ _ _ _ eq_refl eq_refl eq_refl) in Hl.
    + apply record_pet_well_formed in Hm. destruct Hm as (p & Hm).
      rewrite Hm in Hrun.
      destruct Hrun as (st1 & Hrun & Hp & Hframe & Hn & Hpets & _).
      rewrite Hrun. cbn [modify].
      destruct (IH (set_pets (pets st1 ++ [next_ref st]) st1))
        as (st' & Hloop & Hl1 & Hl2 & Hl3 & Hl4).
      cbn [pets next_ref heap set_pets] in Hl1, Hl2, Hl3, Hl4.
      rewrite Hn in Hl1, Hl2, Hl3, Hl4.
      exists st'. split; [exact Hloop|]. unfold loaded. cbn [List.length seq].
      assert (Hnew : heap st' (next_ref st) = p).
      { rewrite Hl4 by lia. exact Hp. }
      split. { rewrite Hl1, Hpets, <- app_assoc. reflexivity. }
      split. { rewrite Hl2. lia. }
      split. { constructor; [now rewrite Hnew | exact Hl3]. }
      intros r Hr. rewrite Hl4 by lia. apply Hframe. lia.
Qed.

Lemma load_data_run (st : state) :
  exists st', load_data st = (Ok tt, st')
    /\ forall records,
         disk st = JsonDoc (VList records) -> io (io_ops st) = IoOk ->
         loaded st st' (filter well_formed records).
Proof.
  unfold load_data, try_except, read_json, next_io. unfold bind at 1. cbn [get].
  destruct (disk st) as [|v|] eqn:Hd.
  - eexists. split; [reflexivity|]. discriminate.
  - unfold bind at 1. unfold bind at 1.
    destruct (io (io_ops st)) eqn:Hio;
      try (eexists; split; [reflexivity | discriminate]).
    unfold bind at 1. cbn [get disk count_io]. rewrite Hd. cbn [ret].
    unfold bind at 1. unfold lift.
    destruct (py_iter v) as [records|e] eqn:Hit.
    + destruct (load_loop_run records (count_io st)) as (st' & Hloop & Hl).
      change (forM_ records load_record (count_io st) = (Ok tt, st')) in Hloop.
      unfold load_record in Hloop. rewrite Hloop.
      exists st'. split; [reflexivity|].
      intros records' [= ->] _. cbn [py_iter] in Hit. injection Hit as <-.
      exact (loaded_same _ _ _ _ eq_refl eq_refl eq_refl Hl).
    + eexists. split; [reflexivity|].
      intros records' [= ->]. discriminate.
  - unfold bind at 1. unfold bind at 1.
    destruct (io (io_ops st)) eqn:Hio;
      try (eexists; split; [reflexivity | discriminate]).
    unfold bind at 1. cbn [get disk count_io]. rewrite Hd.
    eexists. split; [reflexivity | discriminate].
Qed.

(** C3. [load_data] always returns normally.  From a file holding a list of
    records it appends to the collection one new pet for each record that is
    well formed, in the order of the file, each being the pet its record
    describes; a record that is not a dictionary, lacks type, name, age or
    breed, or has a tag other than Dog, Cat, Bird adds nothing and does not
    stop the records after it.  So a well-formed record followed by a
    malformed one loads, into an empty collection, exactly one pet. *)
Theorem load_skips_malformed (st : state) :
  fst (load_data st) = Ok tt
  /\ forall records,
       disk st = JsonDoc (VList records) -> io (io_ops st) = IoOk ->
       loaded st (snd (load_data st)) (filter well_formed records)
       /\ List.length (pets (snd (load_data st)))
          = (List.length (pets st) + List.length (filter well_formed records))%nat
       /\ forall good bad,
            records = [good; bad] ->
            malformed good = false -> malformed bad = true -> pets st = [] ->
            pets (snd (load_data st)) = [next_ref st]
            /\ record_pet good
               = Ok (Some (heap (snd (load_data st)) (next_ref st))).
Proof.
  destruct (load_data_run st) as (st' & Hrun & Hl). rewrite Hrun. cbn [fst snd].
  split; [reflexivity|]. intros records Hd Hio.
  specialize (Hl records Hd Hio). split; [exact Hl|].
  destruct Hl as (Hp & _ & HF & _). split.
  { rewrite Hp, length_app, length_seq. reflexivity. }
  intros good bad -> Hg Hb He.
  cbn [filter] in Hp, HF. unfold well_formed in Hp, HF.
  rewrite Hg, Hb in Hp, HF. cbn [negb List.length seq] in Hp, HF.
  rewrite He in Hp. split; [exact Hp|].
  now inversion HF.
Qed.


(** ** Further properties: the care schedule *)


(** X2. [add_care_task] does not look for an entry of the same label: two
    calls with the same arguments leave two entries, one after the other at
    the end of the schedule. *)
Theorem add_care_task_twice (st : state) (self : ref)
    (task frequency_days last_done : value) (l : list value) :
  care_schedule (heap st self) = VList l ->
  let st1 := snd (add_care_task self task frequency_days last_done st) in
  let out := add_care_task self task frequency_days last_done st1 in
  fst out = Ok tt
  /\ care_schedule (heap (snd out) self)
     = VList (l ++ [VDict [("task", task);
                           ("frequency_days", frequency_days);
                           ("last_done", date_or_today last_done st)];
                    VDict [("task", task);
                           ("frequency_days", frequency_days);
                           ("last_done", date_or_today last_done st1)]]).
Proof.
  intros Hl st1 out. subst out st1.
  rewrite (add_care_task_run _ _ _ _ _ _ Hl). cbn [snd].
  erewrite add_care_task_run
    by (cbn [heap set_heap]; rewrite upd_eq; reflexivity).
  cbn [fst snd heap set_heap]. split; [reflexivity|].
  rewrite upd_eq. cbn [care_schedule with_care_schedule].
  now rewrite <- app_assoc.
Qed.

(** X3. On a pet whose care schedule is not a list, [add_care_task] raises
    [AttributeError] and changes no object; the same holds of
    [add_health_record] on a pet whose health records are not a list.  The
    collection, the file and the console are untouched. *)
Theorem append_to_non_list_raises (st : state) (self : ref) (a b c : value) :
  ((forall l, care_schedule (heap st self) <> VList l) ->
   fst (add_care_task self a b c st) = Raise AttributeError
   /\ heap (snd (add_care_task self a b c st)) = heap st
   /\ pets (snd (add_care_task self a b c st)) = pets st
   /\ disk (snd (add_care_task self a b c st)) = disk st
   /\ stdout (snd (add_care_task self a b c st)) = stdout st)
  /\ ((forall l, health_records (heap st self) <> VList l) ->
      fst (add_health_record self a b c st) = Raise AttributeError
      /\ heap (snd (add_health_record self a b c st)) = heap st
      /\ pets (snd (add_health_record self a b c st)) = pets st
      /\ disk (snd (add_health_record self a b c st)) = disk st
      /\ stdout (snd (add_health_record self a b c st)) = stdout st).
Proof.
  split; intros Hn.
  - unfold add_care_task, bind.
    destruct c; cbn;
      (destruct (care_schedule (heap st self)) as [| | | |sch|] eqn:E;
       [| | | |exfalso; exact (Hn sch eq_refl)|]); repeat split.
  - unfold add_health_record, bind.
    destruct c; cbn;
      (destruct (health_records (heap st self)) as [| | | |sch|] eqn:E;
       [| | | |exfalso; exact (Hn sch eq_refl)|]); repeat split.
Qed.

(** ** Further properties: the overdue query *)

Lemma overdue_loop_app (now : datetime) (vs ws : list value) :
  forall acc,
    overdue_loop now (vs ++ ws) acc
    = rbind (overdue_loop now vs acc) (fun acc' => overdue_loop now ws acc').
Proof.
  induction vs as [|v vs IH]; intros acc; [reflexivity|].
  cbn [app overdue_loop].
  destruct (py_getitem v "last_done") as [s|]; cbn [rbind]; [|reflexivity].
  destruct (strptime s) as [t|]; cbn [rbind]; [|reflexivity].
  destruct (py_getitem v "frequency_days") as [f|]; cbn [rbind]; [|reflexivity].
  destruct (py_int f) as [fz|]; cbn [rbind]; [|reflexivity].
  destruct (_ >=? fz); [|apply IH].
  destruct (py_getitem v "task"); cbn [rbind]; [apply IH | reflexivity].
Qed.

(** The query on a schedule that starts with well-formed entries. *)
Lemma get_overdue_tasks_prefix (st : state) (self : ref)
    (vs ws : list value) (es : list CareEntry) :
  care_schedule (heap st self) = VList (vs ++ ws) ->
  Forall2 is_entry vs es ->
  valid_time (clock (ticks st)) ->
  fst (get_overdue_tasks self st)
  = (overdue <~ overdue_loop (clock (ticks st)) ws
                  (spec_overdue (dt_date (clock (ticks st))) es) ;;
     Ok (VList overdue)).
Proof.
  intros Hs HF Hv. rewrite get_overdue_tasks_run, Hs. cbn [fst py_iter rbind].
  rewrite overdue_loop_app, (overdue_loop_spec _ _ _ Hv HF). reflexivity.
Qed.

Lemma default_task_is_entry (task : string) (f today : Z) (t : datetime) :
  dt_date t = today ->
  strptime_ymd (strftime_ymd today) = Some today ->
  is_entry (default_task task f t) (mkCareEntry (VStr task) f today).
Proof.
  intros Hd Hp. unfold is_entry, default_task, strftime. rewrite Hd.
  eexists. eexists. split; [reflexivity|]. repeat split. exact Hp.
Qed.

Lemma spec_overdue_cons (r : Z) (e : CareEntry) (es : list CareEntry) :
  spec_overdue r (e :: es)
  = (if r - ce_last_done e >=? ce_frequency_days e
     then [report (ce_task e) (r - ce_last_done e - ce_frequency_days e + 1)]
     else []) ++ spec_overdue r es.
Proof. reflexivity. Qed.

Ltac overdue_by_cases :=
  repeat (rewrite spec_overdue_cons; cbn [ce_task ce_frequency_days ce_last_done]);
  repeat match goal with
         | |- context [?a >=? ?b] => destruct (Z.geb_spec a b); try lia
         end;
  cbn [app spec_overdue flat_map]; repeat f_equal; try lia.

(** The query on an object a constructor has just made. *)
Lemma constructed_overdue (st st' : state) (p : Pet) (vs : list value)
    (es : list CareEntry) :
  constructed st st' p ->
  care_schedule p = VList vs ->
  Forall2 is_entry vs es ->
  valid_time (clock (4 + ticks st)) ->
  fst (get_overdue_tasks (next_ref st) st')
  = Ok (VList (spec_overdue (dt_date (clock (4 + ticks st))) es)).
Proof.
  intros (Hp & _ & _ & _ & _ & _ & _ & Ht) Hs HF Hv.
  rewrite get_overdue_tasks_run, Hp, Hs, Ht. cbn [fst py_iter rbind].
  rewrite (overdue_loop_spec _ _ _ Hv HF). reflexivity.
Qed.

(** X4. A pet that has just been constructed on the date [today] has no
    overdue task while the clock stays on that date, for each of the three
    classes; in general the query at a later date [r] lists the seeded tasks
    whose cadence [r - today] has reached, so a Dog made yesterday is due a
    walk and a feed, each overdue by one day.  This needs the clock not to
    pass midnight during construction, and [strptime] to read back the date
    [strftime] wrote. *)
Theorem fresh_pet_overdue (st : state) (name age : value)
    (breed attr : option value) (today : Z) :
  (forall i, (i < 4)%nat -> dt_date (clock (i + ticks st)) = today) ->
  strptime_ymd (strftime_ymd today) = Some today ->
  valid_time (clock (4 + ticks st)) ->
  let r := dt_date (clock (4 + ticks st)) in
  fst (get_overdue_tasks (next_ref st) (snd (Dog_init name age breed attr st)))
  = Ok (VList (spec_overdue r (dog_defaults today)))
  /\ fst (get_overdue_tasks (next_ref st)
            (snd (Cat_init name age breed attr st)))
     = Ok (VList (spec_overdue r (cat_defaults today)))
  /\ fst (get_overdue_tasks (next_ref st)
            (snd (Bird_init name age breed attr st)))
     = Ok (VList (spec_overdue r (bird_defaults today)))
  /\ spec_overdue today (dog_defaults today) = []
  /\ spec_overdue today (cat_defaults today) = []
  /\ spec_overdue today (bird_defaults today) = []
  /\ spec_overdue (today + 1) (dog_defaults today)
     = [report (VStr "Walk") 1; report (VStr "Feed") 1].
Proof.
  intros Hday Hp Hv r.
  assert (H0 : dt_date (clock (ticks st)) = today) by (apply (Hday 0%nat); lia).
  assert (H1 : dt_date (clock (1 + ticks st)) = today) by (apply Hday; lia).
  assert (H2 : dt_date (clock (2 + ticks st)) = today) by (apply Hday; lia).
  assert (H3 : dt_date (clock (3 + ticks st)) = today) by (apply Hday; lia).
  split; [|split; [|split]].
  - destruct (Dog_init_run st name age breed attr) as (st' & Hrun & Hc).
    rewrite Hrun. cbn [snd].
    apply (constructed_overdue _ _ _ _ _ Hc eq_refl); [|exact Hv].
    repeat constructor; now apply default_task_is_entry.
  - destruct (Cat_init_run st name age breed attr) as (st' & Hrun & Hc).
    rewrite Hrun. cbn [snd].
    apply (constructed_overdue _ _ _ _ _ Hc eq_refl); [|exact Hv].
    repeat constructor; now apply default_task_is_entry.
  - destruct (Bird_init_run st name age breed attr) as (st' & Hrun & Hc).
    rewrite Hrun. cbn [snd].
    apply (constructed_overdue _ _ _ _ _ Hc eq_refl); [|exact Hv].
    repeat constructor; now apply default_task_is_entry.
  - unfold dog_defaults, cat_defaults, bird_defaults.
    repeat split; overdue_by_cases.
Qed.

(** X5. A task added without a date is dated today.  Queried on the same
    day, the schedule shows what it showed before, followed by the new task
    exactly when its cadence is zero or negative, then overdue by
    [1 - frequency_days]: [add_care_task] accepts such a cadence and the
    query counts it as reached at once. *)
Theorem new_task_same_day (st : state) (self : ref) (task : value) (f : Z)
    (vs : list value) (es : list CareEntry) (today : Z) :
  care_schedule (heap st self) = VList vs ->
  Forall2 is_entry vs es ->
  dt_date (clock (ticks st)) = today ->
  strptime_ymd (strftime_ymd today) = Some today ->
  valid_time (clock (S (ticks st))) ->
  dt_date (clock (S (ticks st))) = today ->
  fst (get_overdue_tasks self
         (snd (add_care_task self task (VInt f) VNone st)))
  = Ok (VList (spec_overdue today es
               ++ (if f <=? 0 then [report task (1 - f)] else []))).
Proof.
  intros Hs HF Hd Hp Hv Hd'.
  rewrite (add_care_task_run _ _ _ _ _ _ Hs). cbn [snd].
  rewrite get_overdue_tasks_run.
  cbn [heap set_heap reads_clock ticks tick date_or_today fst].
  rewrite upd_eq. cbn [care_schedule with_care_schedule py_iter rbind].
  assert (HF' : Forall2 is_entry
                  (vs ++ [VDict [("task", task); ("frequency_days", VInt f);
                                 ("last_done", strftime (clock (ticks st)))]])
                  (es ++ [mkCareEntry task f today])).
  { apply Forall2_app; [exact HF|]. constructor; [|constructor].
    unfold is_entry, strftime. rewrite Hd.
    eexists. eexists. split; [reflexivity|]. repeat split. exact Hp. }
  rewrite (overdue_loop_spec _ _ _ Hv HF'), Hd'. cbn [app rbind].
  do 2 f_equal. unfold spec_overdue. rewrite flat_map_app. f_equal.
  cbn [flat_map ce_task ce_frequency_days ce_last_done]. rewrite app_nil_r.
  rewrite Z.sub_diag.
  destruct (Z.geb_spec 0 f), (Z.leb_spec f 0); try lia; [|reflexivity].
  do 2 f_equal. lia.
Qed.

(** X6. The query gives no partial answer.  After any number of well-formed
    entries, the first entry that cannot be read makes the whole query
    raise: [TypeError] for an entry that is not a dictionary, for a
    [last_done] that is not a string and for a cadence that is [None], a
    string, a list or a dictionary; [KeyError] for a missing [last_done] or
    [frequency_days]; [ValueError] for a [last_done] that is not a date. *)
Theorem overdue_query_aborts (st : state) (self : ref)
    (vs : list value) (es : list CareEntry) (bad : value) (rest : list value) :
  care_schedule (heap st self) = VList (vs ++ bad :: rest) ->
  Forall2 is_entry vs es ->
  valid_time (clock (ticks st)) ->
  ((forall d, bad <> VDict d) ->
   fst (get_overdue_tasks self st) = Raise TypeError)
  /\ (forall d, bad = VDict d -> dict_get "last_done" d = None ->
        fst (get_overdue_tasks self st) = Raise (KeyError "last_done"))
  /\ (forall d v, bad = VDict d -> dict_get "last_done" d = Some v ->
        (forall s, v <> VStr s) ->
        fst (get_overdue_tasks self st) = Raise TypeError)
  /\ (forall d s, bad = VDict d -> dict_get "last_done" d = Some (VStr s) ->
        strptime_ymd s = None ->
        fst (get_overdue_tasks self st) = Raise ValueError)
  /\ (forall d s dl, bad = VDict d -> dict_get "last_done" d = Some (VStr s) ->
        strptime_ymd s = Some dl ->
        dict_get "frequency_days" d = None ->
        fst (get_overdue_tasks self st) = Raise (KeyError "frequency_days"))
  /\ (forall d s dl v, bad = VDict d ->
        dict_get "last_done" d = Some (VStr s) ->
        strptime_ymd s = Some dl ->
        dict_get "frequency_days" d = Some v ->
        v = VNone \/ (exists x, v = VStr x) \/ (exists x, v = VList x)
        \/ (exists x, v = VDict x) ->
        fst (get_overdue_tasks self st) = Raise TypeError).
Proof.
  intros Hs HF Hv. rewrite (get_overdue_tasks_prefix _ _ _ _ _ Hs HF Hv).
  cbn [overdue_loop].
  split; [|split; [|split; [|split; [|split]]]].
  - intros Hn. destruct bad as [| | | | |d]; try reflexivity.
    exfalso. exact (Hn d eq_refl).
  - intros d -> Hl. cbn [py_getitem]. now rewrite Hl.
  - intros d v -> Hl Hns. cbn [py_getitem]. rewrite Hl. cbn [rbind].
    destruct v as [| | |s| |]; try reflexivity. exfalso. exact (Hns s eq_refl).
  - intros d s -> Hl Hp. cbn [py_getitem]. rewrite Hl. cbn [rbind strptime].
    now rewrite Hp.
  - intros d s dl -> Hl Hp Hf. cbn [py_getitem]. rewrite Hl.
    cbn [rbind strptime]. rewrite Hp. cbn [rbind]. now rewrite Hf.
  - intros d s dl v -> Hl Hp Hf Hv'. cbn [py_getitem]. rewrite Hl.
    cbn [rbind strptime]. rewrite Hp. cbn [rbind]. rewrite Hf. cbn [rbind].
    destruct Hv' as [-> | [(x & ->) | [(x & ->) | (x & ->)]]]; reflexivity.
Qed.

(** X7. The label of an entry is read only once the entry is found overdue:
    an entry with a date and a cadence but no [task] key is passed over
    without error while it is not yet due, and makes the query raise
    [KeyError] from the day it is. *)
Theorem unlabelled_entry (st : state) (self : ref)
    (vs ws : list value) (es fs : list CareEntry)
    (d : list (string * value)) (s : string) (dl f : Z) :
  care_schedule (heap st self) = VList (vs ++ VDict d :: ws) ->
  Forall2 is_entry vs es ->
  Forall2 is_entry ws fs ->
  valid_time (clock (ticks st)) ->
  dict_get "last_done" d = Some (VStr s) ->
  strptime_ymd s = Some dl ->
  dict_get "frequency_days" d = Some (VInt f) ->
  dict_get "task" d = None ->
  let r := dt_date (clock (ticks st)) in
  (r - dl < f ->
   fst (get_overdue_tasks self st) = Ok (VList (spec_overdue r (es ++ fs))))
  /\ (f <= r - dl ->
      fst (get_overdue_tasks self st) = Raise (KeyError "task")).
Proof.
  intros Hs HF HG Hv Hl Hp Hf Ht r.
  rewrite (get_overdue_tasks_prefix _ _ _ _ _ Hs HF Hv).
  cbn [overdue_loop py_getitem]. rewrite Hl. cbn [rbind strptime].
  rewrite Hp. cbn [rbind]. rewrite Hf. cbn [rbind py_int].
  rewrite timedelta_days_midnight by exact Hv. fold r.
  split; intros Hr; destruct (Z.geb_spec (r - dl) f); try lia.
  - rewrite (overdue_loop_spec _ _ _ Hv HG). cbn [rbind]. fold r.
    unfold spec_overdue. now rewrite flat_map_app.
  - now rewrite Ht.
Qed.

(** ** Further properties: the overdue tasks of the whole collection *)

Lemma tag_loop_spec (r : Z) (pet_name : value) (es : list CareEntry) :
  forall acc,
    tag_loop pet_name (spec_overdue r es) acc
    = Ok (acc ++ spec_pet_overdue r pet_name es).
Proof.
  induction es as [|e es IH]; intros acc.
  - cbn. now rewrite app_nil_r.
  - rewrite spec_overdue_cons. unfold spec_pet_overdue. cbn [flat_map].
    destruct (r - ce_last_done e >=? ce_frequency_days e); cbn [app].
    + cbn [tag_loop report py_getitem dict_get String.eqb Ascii.eqb Bool.eqb rbind].
      rewrite IH. unfold spec_pet_overdue, tagged. now rewrite <- app_assoc.
    + apply IH.
Qed.

Lemma ticked_tick (n : nat) (st : state) :
  ticked n (tick st) = ticked (S n) st.
Proof. unfold ticked, tick. cbn. now rewrite Nat.add_succ_r. Qed.

(** One round of the outer loop for a pet with a well-formed schedule. *)
Lemma get_overdue_tasks_well_formed (st : state) (pet : ref)
    (vs : list value) (es : list CareEntry) :
  care_schedule (heap st pet) = VList vs ->
  Forall2 is_entry vs es ->
  valid_time (clock (ticks st)) ->
  get_overdue_tasks pet st
  = (Ok (VList (spec_overdue (dt_date (clock (ticks st))) es)), tick st).
Proof.
  intros Hs HF Hv. rewrite get_overdue_tasks_run, Hs. cbn [py_iter rbind].
  now rewrite (overdue_loop_spec _ _ _ Hv HF).
Qed.

Lemma all_overdue_loop_spec (entries : ref -> list CareEntry) (today : Z)
    (l : list ref) :
  forall acc st,
    (forall pet, In pet l ->
       exists vs, care_schedule (heap st pet) = VList vs
                  /\ Forall2 is_entry vs (entries pet)) ->
    (forall i, (i < List.length l)%nat ->
       valid_time (clock (i + ticks st))
       /\ dt_date (clock (i + ticks st)) = today) ->
    all_overdue_loop l acc st
    = (Ok (acc ++ spec_all_overdue today st entries l),
       ticked (List.length l) st).
Proof.
  induction l as [|pet l IH]; intros acc st Hwf Hclock.
  - cbn. rewrite app_nil_r. unfold ticked. now destruct st.
  - destruct (Hwf pet (or_introl eq_refl)) as (vs & Hs & HF).
    destruct (Hclock 0%nat) as (Hv & Hd); [cbn; lia|]. cbn [Nat.add] in Hv, Hd.
    cbn [all_overdue_loop]. unfold bind at 1.
    rewrite (get_overdue_tasks_well_formed _ _ _ _ Hs HF Hv), Hd.
    unfold bind at 1. cbn [lift py_iter]. unfold bind at 1. cbn [deref].
    unfold bind at 1. cbn [lift heap tick]. rewrite tag_loop_spec.
    rewrite IH.
    + rewrite ticked_tick. cbn [List.length spec_all_overdue flat_map heap tick].
      unfold spec_all_overdue. now rewrite <- app_assoc.
    + intros pet' Hin. cbn [heap tick]. apply Hwf. now right.
    + intros i Hi. cbn [ticks tick]. rewrite Nat.add_succ_r.
      apply (Hclock (S i)). cbn. lia.
Qed.

(** X8. On a collection whose pets all have well-formed schedules,
    [get_all_overdue_tasks] reads the clock once for each pet; when these
    readings fall on the date [today] it returns the overdue entries of the
    first pet, then of the second, and so on, each in schedule order and
    under the name of its pet, with the same test and the same count of days
    as the query on one pet.  Nothing but the clock changes. *)
Theorem all_overdue_tasks_spec (st : state) (entries : ref -> list CareEntry)
    (today : Z) :
  (forall pet, In pet (pets st) ->
     exists vs, care_schedule (heap st pet) = VList vs
                /\ Forall2 is_entry vs (entries pet)) ->
  (forall i, (i < List.length (pets st))%nat ->
     valid_time (clock (i + ticks st))
     /\ dt_date (clock (i + ticks st)) = today) ->
  get_all_overdue_tasks st
  = (Ok (VList (spec_all_overdue today st entries (pets st))),
     ticked (List.length (pets st)) st).
Proof.
  intros Hwf Hclock. unfold get_all_overdue_tasks. unfold bind at 1. cbn [get].
  unfold bind at 1.
  now rewrite (all_overdue_loop_spec entries today _ [] st Hwf Hclock).
Qed.




(** ** Further properties: the collection *)

Lemma find_first {A : Type} (f : A -> bool) (l : list A) (x : A) :
  find f l = Some x
  <-> exists l1 l2,
        l = l1 ++ x :: l2 /\ f x = true /\ Forall (fun y => f y = false) l1.
Proof.
  induction l as [|a l IH]; cbn [find].
  - split; [discriminate|]. intros (l1 & l2 & H & _). now destruct l1.
  - destruct (f a) eqn:E.
    + split.
      * intros [= <-]. exists [], l. repeat split; [exact E | constructor].
      * intros (l1 & l2 & H & Hx & Hl1). destruct l1 as [|b l1].
        -- now injection H as ->.
        -- injection H as -> _. inversion Hl1; congruence.
    + rewrite IH. split.
      * intros (l1 & l2 & -> & Hx & Hl1). exists (a :: l1), l2.
        repeat split; [exact Hx | now constructor].
      * intros (l1 & l2 & H & Hx & Hl1). destruct l1 as [|b l1].
        -- injection H as -> _. congruence.
        -- injection H as -> ->. exists l1, l2. inversion Hl1. now repeat split.
Qed.

Lemma find_none_Forall {A : Type} (f : A -> bool) (l : list A) :
  find f l = None <-> Forall (fun y => f y = false) l.
Proof.
  induction l as [|a l IH]; cbn [find]; [split; [constructor | reflexivity]|].
  destruct (f a) eqn:E.
  - split; [discriminate|]. intros H. inversion H; congruence.
  - rewrite IH. split; [now constructor | intros H; now inversion H].
Qed.

Lemma find_snoc {A : Type} (f : A -> bool) (l : list A) (x : A) :
  find f (l ++ [x])
  = match find f l with
    | Some y => Some y
    | None => if f x then Some x else None
    end.
Proof.
  induction l as [|a l IH]; cbn [app find]; [reflexivity|].
  destruct (f a); [reflexivity | exact IH].
Qed.

(** X10. [get_pet_by_name] changes nothing and returns the first pet, in the
    order of the collection, whose name equals the argument: it returns the
    pet [r] exactly when [r] stands in the collection after pets of other
    names only, and [None] exactly when no pet has that name. *)
Theorem get_pet_by_name_first (st : state) (n : value) :
  snd (get_pet_by_name n st) = st
  /\ (forall r,
        fst (get_pet_by_name n st) = Ok (Some r)
        <-> exists before after,
              pets st = before ++ r :: after
              /\ py_eq (name (heap st r)) n = true
              /\ Forall (fun r' => py_eq (name (heap st r')) n = false) before)
  /\ (fst (get_pet_by_name n st) = Ok None
      <-> Forall (fun r' => py_eq (name (heap st r')) n = false) (pets st)).
Proof.
  unfold get_pet_by_name, bind, get, ret. cbn [fst snd].
  split; [reflexivity|]. split.
  - intros r.
    rewrite <- (find_first (fun pet => py_eq (name (heap st pet)) n)).
    split; [now intros [= ->] | now intros ->].
  - rewrite <- (find_none_Forall (fun pet => py_eq (name (heap st pet)) n)).
    split; [now intros [= ->] | now intros ->].
Qed.

Lemma add_pet_run (pet : ref) (st : state) :
  add_pet pet st = (Ok tt, saved (set_pets (pets st ++ [pet]) st)).
Proof. unfold add_pet, bind, modify. now rewrite save_data_run. Qed.

(** X11. [add_pet] returns normally whatever the file system answers, puts
    the pet at the end of the collection and changes no object; when the
    write succeeds the file holds the documents of the new collection.  A
    later [get_pet_by_name] with the pet's name finds it when no pet of that
    name was there, and otherwise still finds the pet it found before: names
    are not checked, and the older pet hides the newer one. *)
Theorem add_pet_then_find (st : state) (pet : ref) (n : value) :
  fst (add_pet pet st) = Ok tt
  /\ pets (snd (add_pet pet st)) = pets st ++ [pet]
  /\ heap (snd (add_pet pet st)) = heap st
  /\ (io (io_ops st) = IoOk ->
      disk (snd (add_pet pet st))
      = JsonDoc (VList (documents st (pets st ++ [pet]))))
  /\ (py_eq (name (heap st pet)) n = true ->
      fst (get_pet_by_name n st) = Ok None ->
      fst (get_pet_by_name n (snd (add_pet pet st))) = Ok (Some pet))
  /\ (forall old,
        fst (get_pet_by_name n st) = Ok (Some old) ->
        fst (get_pet_by_name n (snd (add_pet pet st))) = Ok (Some old)).
Proof.
  rewrite add_pet_run. cbn [fst snd].
  destruct (saved_frame (set_pets (pets st ++ [pet]) st)) as (Hh & _ & Hp & _).
  cbn [heap pets set_pets] in Hh, Hp.
  split; [reflexivity|]. split; [exact Hp|]. split; [exact Hh|]. split.
  { intros Hio. unfold saved. cbn [io_ops set_pets]. rewrite Hio. reflexivity. }
  unfold get_pet_by_name, bind, get, ret. cbn [fst]. rewrite Hh, Hp, find_snoc.
  split.
  - intros Hn [= ->]. now rewrite Hn.
  - intros old [= ->]. reflexivity.
Qed.

(** X12. Removing a name right after adding a pet of that name leaves the
    pets of other names that were there, and the very collection of before
    when no pet had that name. *)
Theorem add_then_remove (st : state) (pet : ref) (n : value) :
  py_eq (name (heap st pet)) n = true ->
  pets (snd (remove_pet n (snd (add_pet pet st))))
  = filter (fun r => negb (py_eq (name (heap st r)) n)) (pets st)
  /\ (Forall (fun r => py_eq (name (heap st r)) n = false) (pets st) ->
      pets (snd (remove_pet n (snd (add_pet pet st)))) = pets st).
Proof.
  intros Hn. rewrite add_pet_run. cbn [snd]. rewrite remove_pet_run. cbn [snd].
  destruct (saved_frame (set_pets (pets st ++ [pet]) st)) as (Hh & _ & Hp & _).
  cbn [heap pets set_pets] in Hh, Hp.
  match goal with
  | |- context [saved (set_pets ?l ?s)] =>
      destruct (saved_frame (set_pets l s)) as (_ & _ & Hp' & _)
  end.
  cbn [pets set_pets] in Hp'. rewrite Hp', Hh, Hp, filter_app.
  cbn [filter]. rewrite Hn. cbn [negb]. rewrite app_nil_r.
  split; [reflexivity|].
  intros Hnone. apply filter_all. intros r Hr.
  rewrite Forall_forall in Hnone. now rewrite (Hnone r Hr).
Qed.

(** ** Further properties: persistence *)

Lemma well_formed_document (p : Pet) : well_formed (VDict (document p)) = true.
Proof. destruct p as [[x|x|x] n a b cs hr]; reflexivity. Qed.

Lemma filter_well_formed_documents (st : state) (l : list ref) :
  filter well_formed (documents st l) = documents st l.
Proof.
  apply filter_all. intros v Hv. unfold documents in Hv.
  apply in_map_iff in Hv. destruct Hv as (r & <- & _).
  apply well_formed_document.
Qed.

Lemma loaded_documents (st st'' : state) (l : list ref) :
  forall refs,
    Forall2 (fun r pet_data => record_pet pet_data = Ok (Some (heap st'' r)))
            refs (documents st l) ->
    map (heap st'') refs = map (heap st) l.
Proof.
  induction l as [|r l IH]; intros refs HF; cbn [documents map] in HF.
  - inversion HF. reflexivity.
  - inversion HF as [|x y xs ys Hx Hxs]; subst. cbn [map].
    rewrite record_pet_document in Hx. injection Hx as Hx.
    f_equal; [now symmetry | now apply IH].
Qed.

(** X13. What [save_data] wrote, [load_data] reads back.  When the write
    succeeds and a later [load_data], in this or in another run of the
    program, finds the file as it was left and reads it, it returns normally
    and appends as many new pets as were saved, each equal in every field to
    the saved pet at the same place. *)
Theorem save_then_load (st st' : state) :
  io (io_ops st) = IoOk ->
  disk st' = disk (snd (save_data st)) ->
  io (io_ops st') = IoOk ->
  fst (load_data st') = Ok tt
  /\ pets (snd (load_data st'))
     = pets st' ++ seq (next_ref st') (List.length (pets st))
  /\ map (heap (snd (load_data st')))
         (seq (next_ref st') (List.length (pets st)))
     = map (heap st) (pets st).
Proof.
  intros Hio Hd Hio'. rewrite save_data_run in Hd. unfold saved in Hd.
  rewrite Hio in Hd. cbn [snd disk set_disk] in Hd.
  destruct (load_data_run st') as (st'' & Hrun & Hl). rewrite Hrun.
  cbn [fst snd]. split; [reflexivity|].
  destruct (Hl _ Hd Hio') as (Hp & _ & HF & _).
  rewrite filter_well_formed_documents in Hp, HF.
  unfold documents in Hp. rewrite length_map in Hp. split; [exact Hp|].
  apply loaded_documents.
  unfold documents in HF |- *. now rewrite length_map in HF.
Qed.

(** The state after a [load_data] that failed with [e]. *)
Lemma load_data_fails (st : state) (e : exn) :
  disk st <> NoFile ->
  read_json st = (Raise e, count_io st) ->
  load_data st
  = (Ok tt, set_stdout (stdout st ++ [ErrorLoading e]) (count_io st)).
Proof.
  intros Hd Hr. unfold load_data, try_except. unfold bind at 1. cbn [get].
  destruct (disk st); [contradiction| |];
    unfold bind at 1; rewrite Hr; reflexivity.
Qed.

(** X14. [load_data] never raises and a load that fails adds no pet.  With
    no file it does nothing at all.  When opening or reading the file
    raises, when the file holds text that is not JSON, and when the document
    is [None], a boolean or a number, it prints one line naming the
    exception ([ValueError] for the text, [TypeError] for the document) and
    leaves the collection and every object as they were. *)
Theorem load_data_failures (st : state) :
  (disk st = NoFile -> load_data st = (Ok tt, st))
  /\ (forall e,
        disk st <> NoFile ->
        io (io_ops st) = OpenFails e \/ io (io_ops st) = TransferFails e ->
        load_data st
        = (Ok tt, set_stdout (stdout st ++ [ErrorLoading e]) (count_io st)))
  /\ (disk st = Garbage -> io (io_ops st) = IoOk ->
      load_data st
      = (Ok tt,
         set_stdout (stdout st ++ [ErrorLoading ValueError]) (count_io st)))
  /\ (forall v,
        disk st = JsonDoc v -> io (io_ops st) = IoOk ->
        py_iter v = Raise TypeError ->
        load_data st
        = (Ok tt,
           set_stdout (stdout st ++ [ErrorLoading TypeError]) (count_io st))).
Proof.
  split; [|split; [|split]].
  - intros Hd. unfold load_data, try_except. unfold bind at 1. cbn [get].
    now rewrite Hd.
  - intros e Hd Hio. apply load_data_fails; [exact Hd|].
    unfold read_json, next_io. unfold bind at 1.
    destruct Hio as [-> | ->]; reflexivity.
  - intros Hd Hio. apply load_data_fails; [now rewrite Hd|].
    unfold read_json, next_io. unfold bind at 1. rewrite Hio.
    unfold bind at 1. cbn [get disk count_io]. now rewrite Hd.
  - intros v Hd Hio Hit. unfold load_data, try_except, read_json, next_io.
    unfold bind at 1. cbn [get]. rewrite Hd.
    unfold bind at 1. unfold bind at 1. rewrite Hio.
    unfold bind at 1. cbn [get disk count_io]. rewrite Hd. cbn [ret].
    unfold bind at 1. unfold lift. now rewrite Hit.
Qed.

Lemma load_loop_strings (records : list value) :
  Forall (fun v => exists s, v = VStr s) records ->
  forall st,
    forM_ records load_record st
    = (Ok tt,
       set_stdout (stdout st ++ repeat (ErrorCreating TypeError)
                                      (List.length records)) st).
Proof.
  induction 1 as [|v records (s & ->) _ IH]; intros st.
  - cbn. rewrite app_nil_r. now destruct st.
  - cbn [forM_]. unfold bind at 1. unfold load_record at 1. unfold bind at 1.
    change (create_pet_from_data (VStr s) st)
      with (@Ok (option ref) None,
            set_stdout (stdout st ++ [ErrorCreating TypeError]) st).
    cbn [ret]. rewrite IH. cbn [stdout set_stdout List.length repeat].
    rewrite <- app_assoc. reflexivity.
Qed.

(** X15. A document that is a JSON object, not a list, loads no pet: the
    loop runs over the keys of the object, and [create_pet_from_data]
    reports each of them with one [TypeError] line.  The call returns
    normally and changes nothing else. *)
Theorem load_data_not_a_list (st : state) (d : list (string * value)) :
  io (io_ops st) = IoOk ->
  disk st = JsonDoc (VDict d) ->
  load_data st
  = (Ok tt,
     set_stdout (stdout st ++ repeat (ErrorCreating TypeError) (List.length d))
                (count_io st)).
Proof.
  intros Hio Hd.
  assert (Hall : Forall (fun x => exists s, x = VStr s)
                        (map (fun kv : string * value => VStr (fst kv)) d)).
  { apply Forall_forall. intros x Hx. apply in_map_iff in Hx.
    destruct Hx as (kv & <- & _). now eexists. }
  unfold load_data, try_except, read_json, next_io.
  unfold bind at 1. cbn [get]. rewrite Hd.
  unfold bind at 1. unfold bind at 1. rewrite Hio.
  unfold bind at 1. cbn [get disk count_io]. rewrite Hd. cbn [ret].
  unfold bind at 1. unfold lift. cbn [py_iter].
  pose proof (load_loop_strings _ Hall (count_io st)) as Hloop.
  unfold load_record in Hloop. rewrite Hloop. now rewrite length_map.
Qed.

(** X16. [create_pet_from_data] never raises, and what it says about a
    record it drops depends on the fault: a record that is not a dictionary
    is reported with [TypeError]; a record lacking one of type, name, age,
    breed is reported with [KeyError] on the first of them that is missing;
    a record with all four and a tag that is none of Dog, Cat, Bird is
    dropped without a word.  In each case no object is made and the clock is
    not read. *)
Theorem create_pet_from_data_rejects (st : state) (data : value) :
  ((forall d, data <> VDict d) ->
   create_pet_from_data data st
   = (Ok None, set_stdout (stdout st ++ [ErrorCreating TypeError]) st))
  /\ (forall d k,
        data = VDict d -> first_missing d = Some k ->
        create_pet_from_data data st
        = (Ok None, set_stdout (stdout st ++ [ErrorCreating (KeyError k)]) st))
  /\ (forall d ty,
        data = VDict d -> first_missing d = None ->
        dict_get "type" d = Some ty -> recognized ty = false ->
        create_pet_from_data data st = (Ok None, st)).
Proof.
  pose proof (create_pet_from_data_run data st) as Hrun.
  split; [|split].
  - intros Hn. destruct data as [| | | | |d]; try exact Hrun.
    exfalso. exact (Hn d eq_refl).
  - intros d k -> Hk. unfold first_missing in Hk. cbn [find] in Hk.
    unfold record_pet in Hrun. cbn [py_getitem] in Hrun.
    destruct (dict_get "type" d); [|injection Hk as <-; exact Hrun].
    destruct (dict_get "name" d); [|injection Hk as <-; exact Hrun].
    destruct (dict_get "age" d); [|injection Hk as <-; exact Hrun].
    destruct (dict_get "breed" d); [discriminate|injection Hk as <-; exact Hrun].
  - intros d ty -> Hk Ht Hr. unfold first_missing in Hk. cbn [find] in Hk.
    unfold record_pet in Hrun. cbn [py_getitem] in Hrun. rewrite Ht in Hrun, Hk.
    destruct (dict_get "name" d); [|discriminate].
    destruct (dict_get "age" d); [|discriminate].
    destruct (dict_get "breed" d); [|discriminate].
    cbn [rbind] in Hrun. unfold record_variant in Hrun.
    rewrite recognized_py_eq in Hr.
    apply orb_false_iff in Hr. destruct Hr as (Hr & HB).
    apply orb_false_iff in Hr. destruct Hr as (HD & HC).
    rewrite HD, HC, HB in Hrun. exact Hrun.
Qed.

End PetCare.

(** ** The theorems at concrete inputs *)

Lemma overdue_tasks_spec_witness :
  care_schedule (heap Sample.st 0%nat)
  = VList [Sample.entry "Walk" 1 "2024-01-10";
           Sample.entry "Bath" 7 "2024-01-08";
           Sample.entry "Feed" 1 "2024-01-01"]
  /\ Forall2 (is_entry Calendar.parse_ymd)
       [Sample.entry "Walk" 1 "2024-01-10";
        Sample.entry "Bath" 7 "2024-01-08";
        Sample.entry "Feed" 1 "2024-01-01"]
       [mkCareEntry (VStr "Walk") 1 738895;
        mkCareEntry (VStr "Bath") 7 738893;
        mkCareEntry (VStr "Feed") 1 738886]
  /\ valid_time (Sample.clock (ticks Sample.st))
  /\ fst (get_overdue_tasks Calendar.parse_ymd Sample.clock 0%nat Sample.st)
     = Ok (VList [report (VStr "Walk") 1; report (VStr "Feed") 10]).
Proof.
  assert (H1 : care_schedule (heap Sample.st 0%nat)
               = VList [Sample.entry "Walk" 1 "2024-01-10";
                        Sample.entry "Bath" 7 "2024-01-08";
                        Sample.entry "Feed" 1 "2024-01-01"]) by reflexivity.
  assert (H2 : Forall2 (is_entry Calendar.parse_ymd)
                 [Sample.entry "Walk" 1 "2024-01-10";
                  Sample.entry "Bath" 7 "2024-01-08";
                  Sample.entry "Feed" 1 "2024-01-01"]
                 [mkCareEntry (VStr "Walk") 1 738895;
                  mkCareEntry (VStr "Bath") 7 738893;
                  mkCareEntry (VStr "Feed") 1 738886]).
  { constructor; [|constructor; [|constructor; [|constructor]]];
      (eexists; eexists; split; [reflexivity|]; repeat split; reflexivity). }
  assert (H3 : valid_time (Sample.clock (ticks Sample.st))).
  { unfold valid_time, day_us. cbn. lia. }
  split; [exact H1|]. split; [exact H2|]. split; [exact H3|].
  exact (proj1 (overdue_tasks_spec Calendar.parse_ymd Sample.clock
                  Sample.st 0%nat _ _ H1 H2 H3)).
Defined.

Lemma overdue_tasks_pure_witness :
  valid_time (Sample.clock (ticks Sample.st))
  /\ valid_time (Sample.clock (S (ticks Sample.st)))
  /\ dt_date (Sample.clock (S (ticks Sample.st)))
     = dt_date (Sample.clock (ticks Sample.st))
  /\ fst (get_overdue_tasks Calendar.parse_ymd Sample.clock 0%nat
            (snd (get_overdue_tasks Calendar.parse_ymd Sample.clock 0%nat
                    Sample.st)))
     = fst (get_overdue_tasks Calendar.parse_ymd Sample.clock 0%nat Sample.st).
Proof.
  assert (H1 : valid_time (Sample.clock (ticks Sample.st))).
  { unfold valid_time, day_us. cbn. lia. }
  assert (H2 : valid_time (Sample.clock (S (ticks Sample.st)))).
  { unfold valid_time, day_us. cbn. lia. }
  assert (H3 : dt_date (Sample.clock (S (ticks Sample.st)))
               = dt_date (Sample.clock (ticks Sample.st))) by reflexivity.
  split; [exact H1|]. split; [exact H2|]. split; [exact H3|].
  exact (proj2 (proj2 (proj2 (proj2 (proj2
           (overdue_tasks_pure Calendar.parse_ymd Sample.clock
              Sample.st 0%nat))))) H1 H2 H3).
Defined.


Lemma constructors_seed_defaults_witness :
  (forall i, (i < 4)%nat ->
     dt_date (Sample.clock (i + ticks Sample.st)) = 738896)
  /\ care_schedule
       (heap (snd (Dog_init Calendar.format_ymd Sample.clock
                     (VStr "Rex") (VInt 3) None None Sample.st)) 3%nat)
     = VList (dog_seeds Calendar.format_ymd 738896 738896 738896 738896)
  /\ dog_seeds Calendar.format_ymd 738896 738896 738896 738896
     = [Sample.entry "Walk" 1 "2024-01-11";
        Sample.entry "Feed" 1 "2024-01-11";
        Sample.entry "Bath" 7 "2024-01-11";
        Sample.entry "Vet Checkup" 90 "2024-01-11"].
Proof.
  assert (H : forall i, (i < 4)%nat ->
                dt_date (Sample.clock (i + ticks Sample.st)) = 738896).
  { intros i _. reflexivity. }
  split; [exact H|]. split; [|reflexivity].
  pose proof (constructors_seed_defaults Calendar.format_ymd Sample.clock
                Sample.st (VStr "Rex") (VInt 3) None None) as T.
  cbv zeta in T.
  destruct T as ((_ & _ & Hs & _) & _ & _ & Hsame).
  rewrite (proj1 (Hsame 738896 H)) in Hs. exact Hs.
Defined.

Lemma constructors_seed_defaults_counterexample :
  care_schedule
    (heap (snd (Dog_init Calendar.format_ymd Sample.clock_midnight
                  (VStr "Rex") (VInt 3) None None Sample.st)) 3%nat)
  = VList [Sample.entry "Walk" 1 "2024-01-11";
           Sample.entry "Feed" 1 "2024-01-12";
           Sample.entry "Bath" 7 "2024-01-12";
           Sample.entry "Vet Checkup" 90 "2024-01-12"]
  /\ ~ (exists today,
          care_schedule
            (heap (snd (Dog_init Calendar.format_ymd Sample.clock_midnight
                          (VStr "Rex") (VInt 3) None None Sample.st)) 3%nat)
          = VList (dog_seeds Calendar.format_ymd today today today today)).
Proof.
  assert (H : care_schedule
                (heap (snd (Dog_init Calendar.format_ymd Sample.clock_midnight
                              (VStr "Rex") (VInt 3) None None Sample.st)) 3%nat)
              = VList [Sample.entry "Walk" 1 "2024-01-11";
                       Sample.entry "Feed" 1 "2024-01-12";
                       Sample.entry "Bath" 7 "2024-01-12";
                       Sample.entry "Vet Checkup" 90 "2024-01-12"])
    by reflexivity.
  split; [exact H|].
  intros (today & Ht). rewrite H in Ht.
  unfold dog_seeds, seeded, Sample.entry in Ht.
  injection Ht as Hwalk Hfeed _ _.
  rewrite <- Hwalk in Hfeed. discriminate Hfeed.
Qed.

Lemma missing_attribute_defaults_witness :
  dict_get "type" Sample.good_record = Some (VStr "Cat")
  /\ dict_get "name" Sample.good_record = Some (VStr "Tom")
  /\ dict_get "age" Sample.good_record = Some (VInt 5)
  /\ dict_get "breed" Sample.good_record = Some (VStr "Siamese")
  /\ recognized (VStr "Cat") = true
  /\ dict_get "indoor" Sample.good_record = None
  /\ exists st',
       create_pet_from_data Calendar.format_ymd Sample.clock
         (VDict Sample.good_record) Sample.st
       = (Ok (Some 3%nat), st')
       /\ kind (heap st' 3%nat) = Cat (VBool true).
Proof.
  repeat (split; [reflexivity|]).
  destruct (missing_attribute_defaults Calendar.format_ymd Sample.clock
              Sample.st Sample.good_record
              (VStr "Cat") (VStr "Tom") (VInt 5) (VStr "Siamese")
              eq_refl eq_refl eq_refl eq_refl eq_refl)
    as (st' & Hrun & _ & _ & Hcat & _).
  exists st'. split; [exact Hrun | exact (Hcat eq_refl eq_refl)].
Defined.

Lemma missing_sequences_are_empty_witness :
  dict_get "type" Sample.dog_record = Some (VStr "Dog")
  /\ dict_get "name" Sample.dog_record = Some (VStr "Rex")
  /\ dict_get "age" Sample.dog_record = Some (VInt 3)
  /\ dict_get "breed" Sample.dog_record = Some (VStr "Mixed")
  /\ recognized (VStr "Dog") = true
  /\ dict_get "care_schedule" Sample.dog_record = None
  /\ dict_get "health_records" Sample.dog_record = None
  /\ exists st',
       create_pet_from_data Calendar.format_ymd Sample.clock
         (VDict Sample.dog_record) Sample.st
       = (Ok (Some 3%nat), st')
       /\ care_schedule (heap st' 3%nat) = VList []
       /\ health_records (heap st' 3%nat) = VList [].
Proof.
  repeat (split; [reflexivity|]).
  destruct (missing_sequences_are_empty Calendar.format_ymd Sample.clock
              Sample.st Sample.dog_record
              (VStr "Dog") (VStr "Rex") (VInt 3) (VStr "Mixed")
              eq_refl eq_refl eq_refl eq_refl eq_refl)
    as (st' & Hrun & Hcs & Hhr).
  exists st'. split; [exact Hrun|].
  split; [exact (Hcs eq_refl) | exact (Hhr eq_refl)].
Defined.

Lemma load_skips_malformed_witness :
  disk Sample.st_file
  = JsonDoc (VList [VDict Sample.good_record; VDict Sample.bad_record])
  /\ Sample.io_ok (io_ops Sample.st_file) = IoOk
  /\ malformed (VDict Sample.good_record) = false
  /\ malformed (VDict Sample.bad_record) = true
  /\ pets Sample.st_file = []
  /\ pets (snd (load_data Calendar.format_ymd Sample.clock Sample.io_ok
                  Sample.st_file))
     = [3%nat].
Proof.
  repeat (split; [reflexivity|]).
  exact (proj1 (proj2 (proj2
           (proj2 (load_skips_malformed Calendar.format_ymd Sample.clock
                     Sample.io_ok Sample.st_file)
              _ eq_refl eq_refl))
           _ _ eq_refl eq_refl eq_refl eq_refl)).
Defined.

Lemma remove_then_find_witness :
  (forall pet, In pet (pets Sample.st) ->
     has_name "Bob" (heap Sample.st pet) = false)
  /\ pets (snd (remove_pet Sample.io_ok (VStr "Bob") Sample.st))
     = pets Sample.st.
Proof.
  assert (H : forall pet, In pet (pets Sample.st) ->
                has_name "Bob" (heap Sample.st pet) = false).
  { intros pet [<-|[<-|[<-|[]]]]; reflexivity. }
  split; [exact H|].
  exact (proj2 (proj2 (proj2 (proj2
           (remove_then_find Sample.io_ok Sample.st "Bob")))) H).
Defined.

Lemma save_failure_contained_witness :
  Sample.io_full (io_ops Sample.st) = TransferFails OSError
  /\ stdout (snd (save_data Sample.io_full Sample.st)) = [ErrorSaving OSError]
  /\ pets (snd (save_data Sample.io_full Sample.st)) = pets Sample.st
  /\ heap (snd (save_data Sample.io_full Sample.st)) = heap Sample.st.
Proof.
  split; [reflexivity|].
  destruct (proj1 (proj2 (save_failure_contained Sample.io_full Sample.st))
              OSError (or_intror eq_refl))
    as (Hout & Hpets & Hheap & _).
  split; [exact Hout|]. split; [exact Hpets | exact Hheap].
Defined.

(** ** More evaluations *)

(** Both pets called Rex go; Tom stays. *)
Example remove_rex :
  pets (snd (remove_pet Sample.io_ok (VStr "Rex") Sample.st)) = [1%nat]
  /\ fst (get_pet_by_name (VStr "Tom")
            (snd (remove_pet Sample.io_ok (VStr "Rex") Sample.st)))
     = Ok (Some 1%nat).
Proof. split; reflexivity. Qed.

(** A Dog named Rex, age 3, made on 2024-01-11 and saved: the file holds one
    record with type Dog, the four default tasks and size Medium. *)
Example rex_end_to_end :
  disk (snd ((pet <- Dog_init Calendar.format_ymd Sample.clock
                       (VStr "Rex") (VInt 3) None None ;;
              add_pet Sample.io_ok pet) Sample.st_file))
  = JsonDoc
      (VList
         [VDict [("type", VStr "Dog"); ("name", VStr "Rex");
                 ("age", VInt 3); ("breed", VStr "Mixed");
                 ("care_schedule",
                  VList [Sample.entry "Walk" 1 "2024-01-11";
                         Sample.entry "Feed" 1 "2024-01-11";
                         Sample.entry "Bath" 7 "2024-01-11";
                         Sample.entry "Vet Checkup" 90 "2024-01-11"]);
                 ("health_records", VList []);
                 ("size", VStr "Medium")]]).
Proof. vm_compute. reflexivity. Qed.

(** A record that is not a dictionary, one with no age and one with an
    unknown tag are skipped, the first two after a printed line; the record
    between them is loaded. *)
Example load_mixed_file :
  let st := set_disk (JsonDoc (VList [VInt 7;
                                      VDict [("type", VStr "Dog")];
                                      VDict Sample.bird_record;
                                      VDict Sample.bad_record]))
                     Sample.st_file in
  let out := load_data Calendar.format_ymd Sample.clock Sample.io_ok st in
  fst out = Ok tt
  /\ pets (snd out) = [3%nat]
  /\ heap (snd out) 3%nat
     = mkPet (Bird (VBool true)) (VStr "Kiwi") (VInt 1) (VStr "Budgerigar")
             (VList []) (VList [])
  /\ stdout (snd out)
     = [ErrorCreating TypeError; ErrorCreating (KeyError "name")].
Proof. vm_compute. repeat split. Qed.

(** ** The further properties at concrete inputs *)


Lemma add_care_task_twice_witness :
  care_schedule (heap Sample.st 1%nat) = VList []
  /\ care_schedule
       (heap (snd (add_care_task Calendar.format_ymd Sample.clock 1%nat
                     (VStr "Play") (VInt 2) (VStr "2024-01-09")
                     (snd (add_care_task Calendar.format_ymd Sample.clock 1%nat
                             (VStr "Play") (VInt 2) (VStr "2024-01-09")
                             Sample.st)))) 1%nat)
     = VList [Sample.entry "Play" 2 "2024-01-09";
              Sample.entry "Play" 2 "2024-01-09"].
Proof.
  assert (H : care_schedule (heap Sample.st 1%nat) = VList []) by reflexivity.
  split; [exact H|].
  exact (proj2
           (add_care_task_twice Calendar.format_ymd Sample.clock Sample.st
              1%nat (VStr "Play") (VInt 2) (VStr "2024-01-09") _ H)).
Defined.

Lemma append_to_non_list_raises_witness :
  (forall l, care_schedule (heap Sample.st_odd 0%nat) <> VList l)
  /\ (forall l, health_records (heap Sample.st_odd 0%nat) <> VList l)
  /\ fst (add_care_task Calendar.format_ymd Sample.clock 0%nat
            (VStr "Play") (VInt 2) VNone Sample.st_odd)
     = Raise AttributeError
  /\ fst (add_health_record Calendar.format_ymd Sample.clock 0%nat
            (VStr "Checkup") (VStr "Fine") VNone Sample.st_odd)
     = Raise AttributeError.
Proof.
  assert (H1 : forall l, care_schedule (heap Sample.st_odd 0%nat) <> VList l).
  { intros l. discriminate. }
  assert (H2 : forall l, health_records (heap Sample.st_odd 0%nat) <> VList l).
  { intros l. discriminate. }
  split; [exact H1|]. split; [exact H2|]. split.
  - exact (proj1 (proj1
             (append_to_non_list_raises Calendar.format_ymd Sample.clock
                Sample.st_odd 0%nat (VStr "Play") (VInt 2) VNone) H1)).
  - exact (proj1 (proj2
             (append_to_non_list_raises Calendar.format_ymd Sample.clock
                Sample.st_odd 0%nat (VStr "Checkup") (VStr "Fine") VNone) H2)).
Defined.

Lemma fresh_pet_overdue_witness :
  (forall i, (i < 4)%nat ->
     dt_date (Sample.clock (i + ticks Sample.st)) = 738896)
  /\ Calendar.parse_ymd (Calendar.format_ymd 738896) = Some 738896
  /\ valid_time (Sample.clock (4 + ticks Sample.st))
  /\ fst (get_overdue_tasks Calendar.parse_ymd Sample.clock 3%nat
            (snd (Dog_init Calendar.format_ymd Sample.clock
                    (VStr "Rex") (VInt 3) None None Sample.st)))
     = Ok (VList []).
Proof.
  assert (H1 : forall i, (i < 4)%nat ->
                 dt_date (Sample.clock (i + ticks Sample.st)) = 738896).
  { intros i _. reflexivity. }
  assert (H2 : Calendar.parse_ymd (Calendar.format_ymd 738896) = Some 738896)
    by reflexivity.
  assert (H3 : valid_time (Sample.clock (4 + ticks Sample.st))).
  { unfold valid_time, day_us. cbn. lia. }
  split; [exact H1|]. split; [exact H2|]. split; [exact H3|].
  exact (proj1
           (fresh_pet_overdue Calendar.format_ymd Calendar.parse_ymd
              Sample.clock Sample.st (VStr "Rex") (VInt 3) None None
              738896 H1 H2 H3)).
Defined.

Lemma new_task_same_day_witness :
  care_schedule (heap Sample.st 1%nat) = VList []
  /\ Forall2 (is_entry Calendar.parse_ymd) [] []
  /\ dt_date (Sample.clock (ticks Sample.st)) = 738896
  /\ Calendar.parse_ymd (Calendar.format_ymd 738896) = Some 738896
  /\ valid_time (Sample.clock (S (ticks Sample.st)))
  /\ dt_date (Sample.clock (S (ticks Sample.st))) = 738896
  /\ fst (get_overdue_tasks Calendar.parse_ymd Sample.clock 1%nat
            (snd (add_care_task Calendar.format_ymd Sample.clock 1%nat
                    (VStr "Play") (VInt 0) VNone Sample.st)))
     = Ok (VList [report (VStr "Play") 1]).
Proof.
  assert (H1 : care_schedule (heap Sample.st 1%nat) = VList []) by reflexivity.
  assert (H2 : Forall2 (is_entry Calendar.parse_ymd) [] []) by constructor.
  assert (H3 : dt_date (Sample.clock (ticks Sample.st)) = 738896)
    by reflexivity.
  assert (H4 : Calendar.parse_ymd (Calendar.format_ymd 738896) = Some 738896)
    by reflexivity.
  assert (H5 : valid_time (Sample.clock (S (ticks Sample.st)))).
  { unfold valid_time, day_us. cbn. lia. }
  assert (H6 : dt_date (Sample.clock (S (ticks Sample.st))) = 738896)
    by reflexivity.
  repeat (split; [assumption|]).
  exact (new_task_same_day Calendar.format_ymd Calendar.parse_ymd Sample.clock
           Sample.st 1%nat (VStr "Play") 0 [] [] 738896 H1 H2 H3 H4 H5 H6).
Defined.

Lemma overdue_query_aborts_witness :
  care_schedule (heap Sample.st_broken 1%nat)
  = VList ([Sample.entry "Walk" 1 "2024-01-10"]
           ++ VDict [("task", VStr "Bath"); ("frequency_days", VInt 7)]
              :: [Sample.entry "Feed" 1 "2024-01-01"])
  /\ Forall2 (is_entry Calendar.parse_ymd)
       [Sample.entry "Walk" 1 "2024-01-10"]
       [mkCareEntry (VStr "Walk") 1 738895]
  /\ valid_time (Sample.clock (ticks Sample.st_broken))
  /\ dict_get "last_done"
       [("task", VStr "Bath"); ("frequency_days", VInt 7)] = None
  /\ fst (get_overdue_tasks Calendar.parse_ymd Sample.clock 1%nat
            Sample.st_broken)
     = Raise (KeyError "last_done").
Proof.
  assert (H1 : care_schedule (heap Sample.st_broken 1%nat)
               = VList ([Sample.entry "Walk" 1 "2024-01-10"]
                        ++ VDict [("task", VStr "Bath");
                                  ("frequency_days", VInt 7)]
                           :: [Sample.entry "Feed" 1 "2024-01-01"]))
    by reflexivity.
  assert (H2 : Forall2 (is_entry Calendar.parse_ymd)
                 [Sample.entry "Walk" 1 "2024-01-10"]
                 [mkCareEntry (VStr "Walk") 1 738895]).
  { constructor; [|constructor].
    eexists; eexists; split; [reflexivity|]; repeat split; reflexivity. }
  assert (H3 : valid_time (Sample.clock (ticks Sample.st_broken))).
  { unfold valid_time, day_us. cbn. lia. }
  split; [exact H1|]. split; [exact H2|]. split; [exact H3|].
  split; [reflexivity|].
  exact (proj1 (proj2
           (overdue_query_aborts Calendar.parse_ymd Sample.clock
              Sample.st_broken 1%nat _ _ _ _ H1 H2 H3))
           _ eq_refl eq_refl).
Defined.

Lemma unlabelled_entry_witness :
  care_schedule (heap Sample.st_broken 3%nat)
  = VList ([] ++ VDict [("frequency_days", VInt 7);
                        ("last_done", VStr "2024-01-08")] :: [])
  /\ valid_time (Sample.clock (ticks Sample.st_broken))
  /\ Calendar.parse_ymd "2024-01-08" = Some 738893
  /\ dt_date (Sample.clock (ticks Sample.st_broken)) - 738893 < 7
  /\ fst (get_overdue_tasks Calendar.parse_ymd Sample.clock 3%nat
            Sample.st_broken)
     = Ok (VList []).
Proof.
  assert (H1 : care_schedule (heap Sample.st_broken 3%nat)
               = VList ([] ++ VDict [("frequency_days", VInt 7);
                                     ("last_done", VStr "2024-01-08")] :: []))
    by reflexivity.
  assert (H2 : valid_time (Sample.clock (ticks Sample.st_broken))).
  { unfold valid_time, day_us. cbn. lia. }
  assert (H3 : Calendar.parse_ymd "2024-01-08" = Some 738893) by reflexivity.
  assert (H4 : dt_date (Sample.clock (ticks Sample.st_broken)) - 738893 < 7).
  { cbn. lia. }
  split; [exact H1|]. split; [exact H2|]. split; [exact H3|]. split; [exact H4|].
  exact (proj1
           (unlabelled_entry Calendar.parse_ymd Sample.clock Sample.st_broken
              3%nat [] [] [] [] _ "2024-01-08" 738893 7
              H1 (Forall2_nil _) (Forall2_nil _) H2
              eq_refl H3 eq_refl eq_refl)
           H4).
Defined.

Lemma all_overdue_tasks_spec_witness :
  (forall pet, In pet (pets Sample.st) ->
     exists vs,
       care_schedule (heap Sample.st pet) = VList vs
       /\ Forall2 (is_entry Calendar.parse_ymd) vs
            (match pet with
             | 1%nat => []
             | _ => [mkCareEntry (VStr "Walk") 1 738895;
                     mkCareEntry (VStr "Bath") 7 738893;
                     mkCareEntry (VStr "Feed") 1 738886]
             end))
  /\ (forall i, (i < List.length (pets Sample.st))%nat ->
        valid_time (Sample.clock (i + ticks Sample.st))
        /\ dt_date (Sample.clock (i + ticks Sample.st)) = 738896)
  /\ get_all_overdue_tasks Calendar.parse_ymd Sample.clock Sample.st
     = (Ok (VList [tagged (VStr "Rex") (VStr "Walk") 1;
                   tagged (VStr "Rex") (VStr "Feed") 10;
                   tagged (VStr "Rex") (VStr "Walk") 1;
                   tagged (VStr "Rex") (VStr "Feed") 10]),
        ticked 3 Sample.st).
Proof.
  assert (Hrex : Forall2 (is_entry Calendar.parse_ymd)
                   [Sample.entry "Walk" 1 "2024-01-10";
                    Sample.entry "Bath" 7 "2024-01-08";
                    Sample.entry "Feed" 1 "2024-01-01"]
                   [mkCareEntry (VStr "Walk") 1 738895;
                    mkCareEntry (VStr "Bath") 7 738893;
                    mkCareEntry (VStr "Feed") 1 738886]).
  { constructor; [|constructor; [|constructor; [|constructor]]];
      (eexists; eexists; split; [reflexivity|]; repeat split; reflexivity). }
  assert (H1 : forall pet, In pet (pets Sample.st) ->
                 exists vs,
                   care_schedule (heap Sample.st pet) = VList vs
                   /\ Forall2 (is_entry Calendar.parse_ymd) vs
                        (match pet with
                         | 1%nat => []
                         | _ => [mkCareEntry (VStr "Walk") 1 738895;
                                 mkCareEntry (VStr "Bath") 7 738893;
                                 mkCareEntry (VStr "Feed") 1 738886]
                         end)).
  { intros pet [<-|[<-|[<-|[]]]]; eexists; (split; [reflexivity|]);
      try exact Hrex; constructor. }
  assert (H2 : forall i, (i < List.length (pets Sample.st))%nat ->
                 valid_time (Sample.clock (i + ticks Sample.st))
                 /\ dt_date (Sample.clock (i + ticks Sample.st)) = 738896).
  { intros i Hi. split; [|reflexivity].
    unfold valid_time, day_us. cbn in *. lia. }
  split; [exact H1|]. split; [exact H2|].
  exact (all_overdue_tasks_spec Calendar.parse_ymd Sample.clock Sample.st
           _ 738896 H1 H2).
Defined.


Lemma get_pet_by_name_first_witness :
  (exists before after,
     pets Sample.st = before ++ 0%nat :: after
     /\ py_eq (name (heap Sample.st 0%nat)) (VStr "Rex") = true
     /\ Forall (fun r' => py_eq (name (heap Sample.st r')) (VStr "Rex") = false)
               before)
  /\ fst (get_pet_by_name (VStr "Rex") Sample.st) = Ok (Some 0%nat).
Proof.
  assert (H : exists before after,
            pets Sample.st = before ++ 0%nat :: after
            /\ py_eq (name (heap Sample.st 0%nat)) (VStr "Rex") = true
            /\ Forall (fun r' => py_eq (name (heap Sample.st r')) (VStr "Rex")
                                 = false) before).
  { exists [], [1; 2]%nat. repeat split. constructor. }
  split; [exact H|].
  exact (proj2 (proj1 (proj2 (get_pet_by_name_first Sample.st (VStr "Rex")))
                  0%nat) H).
Defined.

Lemma add_pet_then_find_witness :
  py_eq (name (heap Sample.st_new 1%nat)) (VStr "Bo") = true
  /\ fst (get_pet_by_name (VStr "Bo") Sample.st_new) = Ok None
  /\ fst (get_pet_by_name (VStr "Bo")
            (snd (add_pet Sample.io_ok 1%nat Sample.st_new)))
     = Ok (Some 1%nat).
Proof.
  split; [reflexivity|]. split; [reflexivity|].
  exact (proj1 (proj2 (proj2 (proj2 (proj2
           (add_pet_then_find Sample.io_ok Sample.st_new 1%nat (VStr "Bo"))))))
           eq_refl eq_refl).
Defined.

Lemma add_then_remove_witness :
  py_eq (name (heap Sample.st_new 1%nat)) (VStr "Bo") = true
  /\ Forall (fun r => py_eq (name (heap Sample.st_new r)) (VStr "Bo") = false)
            (pets Sample.st_new)
  /\ pets (snd (remove_pet Sample.io_ok (VStr "Bo")
                  (snd (add_pet Sample.io_ok 1%nat Sample.st_new))))
     = pets Sample.st_new.
Proof.
  assert (H : Forall (fun r => py_eq (name (heap Sample.st_new r)) (VStr "Bo")
                               = false) (pets Sample.st_new)).
  { repeat constructor. }
  split; [reflexivity|]. split; [exact H|].
  exact (proj2 (add_then_remove Sample.io_ok Sample.st_new 1%nat (VStr "Bo")
                  eq_refl) H).
Defined.

Lemma save_then_load_witness :
  Sample.io_ok (io_ops Sample.st) = IoOk
  /\ disk (set_pets [] (snd (save_data Sample.io_ok Sample.st)))
     = disk (snd (save_data Sample.io_ok Sample.st))
  /\ Sample.io_ok (io_ops (set_pets [] (snd (save_data Sample.io_ok Sample.st))))
     = IoOk
  /\ map (heap (snd (load_data Calendar.format_ymd Sample.clock Sample.io_ok
                       (set_pets [] (snd (save_data Sample.io_ok Sample.st))))))
         [3; 4; 5]%nat
     = [Sample.rex; Sample.tom; Sample.rex].
Proof.
  repeat (split; [reflexivity|]).
  exact (proj2 (proj2
           (save_then_load Calendar.format_ymd Sample.clock Sample.io_ok
              Sample.st (set_pets [] (snd (save_data Sample.io_ok Sample.st)))
              eq_refl eq_refl eq_refl))).
Defined.

Lemma load_data_failures_witness :
  disk (set_disk Garbage Sample.st) = Garbage
  /\ Sample.io_ok (io_ops (set_disk Garbage Sample.st)) = IoOk
  /\ load_data Calendar.format_ymd Sample.clock Sample.io_ok
       (set_disk Garbage Sample.st)
     = (Ok tt,
        set_stdout [ErrorLoading ValueError]
                   (count_io (set_disk Garbage Sample.st))).
Proof.
  repeat (split; [reflexivity|]).
  exact (proj1 (proj2 (proj2
           (load_data_failures Calendar.format_ymd Sample.clock Sample.io_ok
              (set_disk Garbage Sample.st))))
           eq_refl eq_refl).
Defined.

Lemma load_data_not_a_list_witness :
  Sample.io_ok (io_ops (set_disk (JsonDoc (VDict Sample.good_record)) Sample.st))
  = IoOk
  /\ disk (set_disk (JsonDoc (VDict Sample.good_record)) Sample.st)
     = JsonDoc (VDict Sample.good_record)
  /\ load_data Calendar.format_ymd Sample.clock Sample.io_ok
       (set_disk (JsonDoc (VDict Sample.good_record)) Sample.st)
     = (Ok tt,
        set_stdout [ErrorCreating TypeError; ErrorCreating TypeError;
                    ErrorCreating TypeError; ErrorCreating TypeError]
                   (count_io (set_disk (JsonDoc (VDict Sample.good_record))
                                       Sample.st))).
Proof.
  do 2 (split; [reflexivity|]).
  exact (load_data_not_a_list Calendar.format_ymd Sample.clock Sample.io_ok
           (set_disk (JsonDoc (VDict Sample.good_record)) Sample.st)
           Sample.good_record eq_refl eq_refl).
Defined.

Lemma create_pet_from_data_rejects_witness :
  first_missing Sample.bad_record = None
  /\ dict_get "type" Sample.bad_record = Some (VStr "Fish")
  /\ recognized (VStr "Fish") = false
  /\ first_missing [("type", VStr "Dog"); ("age", VInt 3)] = Some "name"
  /\ create_pet_from_data Calendar.format_ymd Sample.clock
       (VDict Sample.bad_record) Sample.st
     = (Ok None, Sample.st)
  /\ create_pet_from_data Calendar.format_ymd Sample.clock
       (VDict [("type", VStr "Dog"); ("age", VInt 3)]) Sample.st
     = (Ok None, set_stdout [ErrorCreating (KeyError "name")] Sample.st).
Proof.
  do 4 (split; [reflexivity|]). split.
  - exact (proj2 (proj2
             (create_pet_from_data_rejects Calendar.format_ymd Sample.clock
                Sample.st (VDict Sample.bad_record)))
             Sample.bad_record (VStr "Fish") eq_refl eq_refl eq_refl eq_refl).
  - exact (proj1 (proj2
             (create_pet_from_data_rejects Calendar.format_ymd Sample.clock
                Sample.st (VDict [("type", VStr "Dog"); ("age", VInt 3)])))
             _ "name" eq_refl eq_refl).
Defined.
